(** * gplot++: the [Gnuplot] session class of [gplot++.h], embedded in Rocq

    The header defines one class, [Gnuplot], that pipes text commands to a
    gnuplot process.  Every method either edits the in-memory session (pending
    series, axis ranges, 2D/3D flag) or writes a line of text to the pipe.
    The embedding below follows the header method by method:

    - [std::string] is [string]; a [std::stringstream] that is only written to
      is the string written so far;
    - [operator<<] on a number is the class [Print]; [int] and [size_t] print
      in decimal, the printing of the element type of the plotted vectors and
      of [double] stays a parameter of the development;
    - [FILE *connection] is [option string]: [None] is the null pointer,
      [Some t] an open pipe that has received the text [t];
    - [assert], [std::vector::at] and the operations whose behaviour C++ leaves
      undefined end a call with a [fault] instead of a new session (the header
      is taken as compiled with assertions enabled);
    - [int] has 32 bits and [size_t] 64; conversions between them wrap as
      they do on the usual platforms;
    - the [double]s that [histogram] computes with are IEEE 754 binary64
      numbers ([spec_float] at precision 53), every operation rounded to
      nearest, ties to even; the bounds given to the range setters are only
      tested with [isnan] and printed, and are kept as NaN or a number;
    - [fputs] writes a C string: what is sent of a [std::string] ends at its
      first NUL;
    - the vector of counters that [histogram] asks for comes from a [Heap]
      that may refuse it; the other allocations are taken to succeed. *)

From Stdlib Require Import ZArith QArith Qround Lia Ascii DecimalString SpecFloat.
From Stdlib Require String.
From stdpp Require Import base tactics option list strings.

Local Open Scope Z_scope.

(** ** Text *)

Module Text.

Definition quote : ascii := "'"%char.
Definition newline : ascii := "010"%char.
Definition space : ascii := " "%char.
Definition star : ascii := "*"%char.
Definition nul : ascii := "000"%char.

Definition nl : string := String newline "".

(** The string made of the single character [c] ([std::string::push_back]
    applied to the empty string). *)
Definition char (c : ascii) : string := String c "".

Fixpoint count_char (c : ascii) (s : string) : nat :=
  match s with
  | EmptyString => 0%nat
  | String a s' => ((if Ascii.eqb a c then 1 else 0) + count_char c s')%nat
  end.

(** [s] holds no occurrence of [c]. *)
Definition lacks (c : ascii) (s : string) : Prop := count_char c s = 0%nat.

(** The pieces of [s] between the occurrences of [sep]; a string with [n]
    separators has [n + 1] pieces, some of them possibly empty. *)
Fixpoint split_on (sep : ascii) (s : string) : list string :=
  match s with
  | EmptyString => [""]
  | String a s' =>
      if Ascii.eqb a sep then "" :: split_on sep s'
      else match split_on sep s' with
           | piece :: rest => String a piece :: rest
           | [] => [char a]
           end
  end.

Definition lines (s : string) : list string := split_on newline s.

Definition nonempty (s : string) : bool :=
  match s with EmptyString => false | String _ _ => true end.

(** The columns of a data line: gnuplot separates them by blanks, and several
    blanks in a row, or blanks at either end, separate nothing. *)
Definition fields (s : string) : list string :=
  filter (fun piece => nonempty piece = true) (split_on space s).

(** A column entry as gnuplot reads it: not empty, and free of the characters
    that end a column or a line. *)
Definition token (s : string) : Prop :=
  s <> "" /\ lacks space s /\ lacks newline s.

Fixpoint concat (ls : list string) : string :=
  match ls with
  | [] => ""
  | s :: ls' => s +:+ concat ls'
  end.

(** The data lines of a block of text: its lines that are not empty. *)
Definition data_rows (block : list string) : list string :=
  filter (fun line => nonempty line = true) block.

(** A line [$name << EOD] opens an inline data block. *)
Definition is_block_header (line : string) : bool :=
  match fields line with
  | [name; op; word] =>
      String.prefix "$" name && String.eqb op "<<" && String.eqb word "EOD"
  | _ => false
  end.

(** The inline data blocks of a text sent to gnuplot, each as the list of
    the lines between its header and the line [EOD] that closes it.
    [current] holds, last line first, the lines of the block being read, if
    one is open. *)
Fixpoint datablocks_from (ls : list string) (current : option (list string))
    : list (list string) :=
  match ls with
  | [] => []
  | line :: ls' =>
      match current with
      | None =>
          if is_block_header line then datablocks_from ls' (Some [])
          else datablocks_from ls' None
      | Some block =>
          if String.eqb line "EOD" then rev block :: datablocks_from ls' None
          else datablocks_from ls' (Some (line :: block))
      end
  end.

Definition datablocks (text : string) : list (list string) :=
  datablocks_from (lines text) None.

End Text.

Import Text.

(** ** Printing numbers: [operator<<] *)

Class Print (T : Type) := print : T -> string.
Global Hint Mode Print ! : typeclass_instances.

(** [int] and [size_t] are printed in decimal, a leading [-] for a negative
    [int]. *)
Global Instance print_int : Print Z :=
  fun z => NilZero.string_of_int (Z.to_int z).
Global Instance print_size_t : Print N :=
  fun n => NilZero.string_of_uint (N.to_uint n).

(** The 8-bit integer types ([char], [signed char], [unsigned char], and with
    them [int8_t] and [uint8_t]) are printed as the character they encode,
    not as a number. *)
Global Instance print_char : Print ascii := char.

(** ** [escape_quotes] *)

(** The loop of [escape_quotes]: [result] grows at its end, by the character
    itself or by two quotes. *)
Fixpoint escape_quotes_loop (s result : string) : string :=
  match s with
  | EmptyString => result
  | String c s' =>
      escape_quotes_loop s'
        (if negb (Ascii.eqb c quote) then result +:+ char c
         else result +:+ "''")
  end.

Definition escape_quotes (s : string) : string := escape_quotes_loop s "".

(** What the specification asks of the escaping, character by character:
    a quote becomes two quotes, any other character stays. *)
Fixpoint double_each_quote (s : string) : string :=
  match s with
  | EmptyString => ""
  | String c s' =>
      if Ascii.eqb c quote then String quote (String quote (double_each_quote s'))
      else String c (double_each_quote s')
  end.

(** Reading back a quoted text the way gnuplot does: two quotes in a row stand
    for one literal quote, a quote on its own ends the current piece.
    [current] is the piece read so far. *)
Fixpoint split_on_lone_quotes (s current : string) : list string :=
  match s with
  | EmptyString => [current]
  | String c s' =>
      if Ascii.eqb c quote then
        match s' with
        | String c' s'' =>
            if Ascii.eqb c' quote
            then split_on_lone_quotes s'' (current +:+ char quote)
            else current :: split_on_lone_quotes s' ""
        | EmptyString => [current; ""]
        end
      else split_on_lone_quotes s' (current +:+ char c)
  end.

(** ** Outcomes of a call *)

(** The three [assert]s of the header. *)
Inductive assertion :=
  | nbins_positive          (* [assert(nbins > 0)] in [histogram] *)
  | not_3dplot              (* [assert(!is_3dplot)] in [histogram] *)
  | same_dimensionality.    (* [assert(is_3dplot == is_this_3dplot)] in [_plot] *)

(** What C++ leaves undefined in the code at hand. *)
Inductive undefined :=
  | read_past_the_end       (* [v[i]] with [i >= v.size()] *)
  | float_to_int            (* [static_cast<int>] of a value outside [int], or of NaN *)
  | int_overflow.           (* [--index] at [INT_MIN] *)

Inductive fault :=
  | AssertionFailed (a : assertion)
  | OutOfRange                        (* [std::out_of_range] thrown by [at] *)
  | LengthError                       (* [std::length_error] thrown by [vector(n)] *)
  | BadAlloc                          (* [std::bad_alloc] thrown by [vector(n)] *)
  | Undefined (u : undefined).

Inductive result (A : Type) :=
  | Ok (a : A)
  | Fault (f : fault).
Arguments Ok {A} a.
Arguments Fault {A} f.

Global Instance result_ret : MRet result := fun A a => Ok a.
Global Instance result_bind : MBind result := fun A B k r =>
  match r with
  | Ok a => k a
  | Fault f => Fault f
  end.

(** ** Machine integers and doubles *)

Definition INT_MIN : Z := - 2 ^ 31.
Definition INT_MAX : Z := 2 ^ 31 - 1.

(** [int(n)] for a [size_t n]: the low 32 bits, read as a signed number. *)
Definition int_of_size_t (n : N) : Z :=
  (Z.of_N n + 2 ^ 31) mod 2 ^ 32 - 2 ^ 31.

(** An [int] converted to [size_t], as happens to the argument of [at]. *)
Definition size_t_of_int (z : Z) : N := Z.to_N (z mod 2 ^ 64).

(** [--index] *)
Definition decrement (index : Z) : result Z :=
  if index =? INT_MIN then Fault (Undefined int_overflow) else Ok (index - 1).

(** The bounds of the range setters: [NAN], or a number. *)
Inductive double :=
  | NaN
  | Num (q : Q).

Definition isnan (d : double) : bool :=
  match d with NaN => true | Num _ => false end.

(** *** binary64

    A [double] of [histogram] is a [spec_float] that is valid at precision 53
    and maximal exponent 1024: a signed zero, a signed infinity, NaN, or
    [(-1)^s * m * 2^e] with a mantissa [m] of at most 53 bits. *)
Definition binary64 : Type := spec_float.

Definition prec : Z := 53.
Definition emax : Z := 1024.

Definition is_binary64 (x : binary64) : bool := valid_binary prec emax x.

Definition double_add (x y : binary64) : binary64 := SFadd prec emax x y.
Definition double_sub (x y : binary64) : binary64 := SFsub prec emax x y.
Definition double_mul (x y : binary64) : binary64 := SFmul prec emax x y.
Definition double_div (x y : binary64) : binary64 := SFdiv prec emax x y.

(** [x < y]: false as soon as one of the two is NaN. *)
Definition double_lt (x y : binary64) : bool := SFltb x y.

(** The [double] nearest to an integer, as in the conversion of a [size_t]
    operand of a [double] operation. *)
Definition double_of_Z (z : Z) : binary64 := binary_normalize prec emax z 0 false.
Definition double_of_size_t (n : N) : binary64 := double_of_Z (Z.of_N n).

(** The literal [0.5] *)
Definition one_half : binary64 := S754_finite false 4503599627370496 (-53).

(** A finite [double] without its fractional part. *)
Definition truncate (x : binary64) : option Z :=
  match x with
  | S754_zero _ => Some 0
  | S754_finite s m e =>
      let a := Z.shiftl (Z.pos m) e in Some (if s then - a else a)
  | S754_infinity _ | S754_nan => None
  end.

(** [static_cast<int>(x)]: the fractional part is dropped; the behaviour is
    undefined when what is left does not fit [int], and for an infinity or
    NaN. *)
Definition static_cast_int (x : binary64) : result Z :=
  match truncate x with
  | Some z =>
      if (INT_MIN <=? z) && (z <=? INT_MAX) then Ok z
      else Fault (Undefined float_to_int)
  | None => Fault (Undefined float_to_int)
  end.

(** [*std::min_element(first, last)]: the first of the smallest elements;
    [None] on an empty range, where the iterator returned is [last]. *)
Definition min_element (l : list binary64) : option binary64 :=
  match l with
  | [] => None
  | x :: l' =>
      Some (fold_left (fun smallest y => if double_lt y smallest then y else smallest)
                      l' x)
  end.

Definition max_element (l : list binary64) : option binary64 :=
  match l with
  | [] => None
  | x :: l' =>
      Some (fold_left (fun largest y => if double_lt largest y then y else largest)
                      l' x)
  end.

(** *** The heap

    [std::vector<size_t> bins(nbins)] throws [std::length_error] when [nbins]
    exceeds the [max_size] of the library, and [std::bad_alloc] when the
    memory is not there.  Which of the three happens is up to the platform:
    it is a parameter. *)
Inductive allocation := allocated | length_error | bad_alloc.

Class Heap := allocate : N -> allocation.

(** ** The session *)

Inductive LineStyle :=
  | DOTS | LINES | POINTS | LINESPOINTS | STEPS | BOXES
  | X_ERROR_BARS | Y_ERROR_BARS | XY_ERROR_BARS | VECTORS.

Inductive AxisScale := LINEAR | LOGX | LOGY | LOGXY.

Inductive TerminalMode := MONO | ANSI | ANSI256 | ANSIRGB.

Record GnuplotSeries := {
  data_string : string;
  line_style : LineStyle;
  title : string;
  column_range : string
}.

Record Gnuplot := {
  connection : option string;
  series : list GnuplotSeries;
  files_to_delete : list string;
  xrange : string;
  yrange : string;
  zrange : string;
  is_3dplot : bool
}.

Definition with_connection (c : option string) (g : Gnuplot) : Gnuplot :=
  {| connection := c; series := series g; files_to_delete := files_to_delete g;
     xrange := xrange g; yrange := yrange g; zrange := zrange g;
     is_3dplot := is_3dplot g |}.

Definition with_series (ss : list GnuplotSeries) (g : Gnuplot) : Gnuplot :=
  {| connection := connection g; series := ss; files_to_delete := files_to_delete g;
     xrange := xrange g; yrange := yrange g; zrange := zrange g;
     is_3dplot := is_3dplot g |}.

Definition with_xrange (r : string) (g : Gnuplot) : Gnuplot :=
  {| connection := connection g; series := series g; files_to_delete := files_to_delete g;
     xrange := r; yrange := yrange g; zrange := zrange g;
     is_3dplot := is_3dplot g |}.

Definition with_yrange (r : string) (g : Gnuplot) : Gnuplot :=
  {| connection := connection g; series := series g; files_to_delete := files_to_delete g;
     xrange := xrange g; yrange := r; zrange := zrange g;
     is_3dplot := is_3dplot g |}.

Definition with_zrange (r : string) (g : Gnuplot) : Gnuplot :=
  {| connection := connection g; series := series g; files_to_delete := files_to_delete g;
     xrange := xrange g; yrange := yrange g; zrange := r;
     is_3dplot := is_3dplot g |}.

Definition with_is_3dplot (b : bool) (g : Gnuplot) : Gnuplot :=
  {| connection := connection g; series := series g; files_to_delete := files_to_delete g;
     xrange := xrange g; yrange := yrange g; zrange := zrange g;
     is_3dplot := b |}.

Definition style_to_str (style : LineStyle) : string :=
  match style with
  | DOTS => "dots"
  | POINTS => "points"
  | LINESPOINTS => "linespoints"
  | STEPS => "steps"
  | BOXES => "boxes"
  | X_ERROR_BARS => "xerrorbars"
  | Y_ERROR_BARS => "yerrorbars"
  | XY_ERROR_BARS => "xyerrorbars"
  | VECTORS => "vectors"
  | LINES => "lines"
  end.

Definition ok (g : Gnuplot) : bool :=
  match connection g with Some _ => true | None => false end.

(** [g'] is [g] but for the text received by the connection. *)
Definition same_but_connection (g g' : Gnuplot) : Prop :=
  series g' = series g /\ files_to_delete g' = files_to_delete g
  /\ xrange g' = xrange g /\ yrange g' = yrange g /\ zrange g' = zrange g
  /\ is_3dplot g' = is_3dplot g.

(** What [fputs(str.c_str(), connection)] writes of a [std::string]: its
    characters up to the first NUL, which ends a C string. *)
Fixpoint c_str (str : string) : string :=
  match str with
  | EmptyString => ""
  | String a str' => if Ascii.eqb a nul then "" else String a (c_str str')
  end.

(** [sendcommand]: the text, a line feed, and a flush; nothing at all on a
    null connection.  Every overload ends in the one that takes a
    [const char *]. *)
Definition sendcommand (str : string) (g : Gnuplot) : bool * Gnuplot :=
  match connection g with
  | None => (false, g)
  | Some sent => (true, with_connection (Some (sent +:+ c_str str +:+ nl)) g)
  end.

(** What the destructor does, in order. *)
Inductive teardown_event :=
  | pclose
  | sleep (seconds : N)
  | remove (fname : string).

Definition destructor (g : Gnuplot) : list teardown_event :=
  (if ok g then [pclose] else [])
  ++ [sleep 1]
  ++ map remove (files_to_delete g).

Section Methods.

(** [T] is the element type of the plotted vectors. *)
Context {T : Type} {print_T : Print T} {print_Q : Print Q}.

(** The printing of a binary64 number, and the heap. *)
Context {print_binary64 : Print binary64} {heap : Heap}.

(** [os << d] for a double *)
Global Instance print_double : Print double := fun d =>
  match d with
  | NaN => "nan"
  | Num q => print q
  end.

Definition format_range (min max : double) : string :=
  if isnan min && isnan max then "[]"
  else
    let os := "[" in
    let os := if isnan min then os +:+ "*" else os +:+ print min in
    let os := os +:+ ":" in
    let os := if isnan max then os +:+ "*" else os +:+ print max in
    os +:+ "]".

(** One bound of a range as the specification writes it: a [*] for an
    automatic bound, the number otherwise. *)
Definition bound_text (d : double) : string :=
  if isnan d then "*" else print d.

Definition set_xrange (min max : double) (g : Gnuplot) : Gnuplot :=
  with_xrange (format_range min max) g.

Definition set_yrange (min max : double) (g : Gnuplot) : Gnuplot :=
  with_yrange (format_range min max) g.

Definition set_zrange (min max : double) (g : Gnuplot) : Gnuplot :=
  with_zrange (format_range min max) g.

(** [reset]; [set_xrange()] is [set_xrange(NAN, NAN)], by the default
    arguments. *)
Definition reset (g : Gnuplot) : Gnuplot :=
  let g := with_series [] g in
  let g := set_xrange NaN NaN g in
  let g := set_yrange NaN NaN g in
  with_is_3dplot false g.

(** The constructor.  [safe_popen] stands for the operating system: it says
    whether the process could be started. *)
Definition popen_command (executable_name : string) (persist : bool) : string :=
  executable_name +:+ (if persist then " --persist" else "").

Definition Gnuplot_new (executable_name : string) (persist : bool)
    (safe_popen : string -> string -> bool) : Gnuplot :=
  let g := {| connection := None; series := []; files_to_delete := [];
              xrange := ""; yrange := ""; zrange := ""; is_3dplot := false |} in
  let g := with_connection
             (if safe_popen (popen_command executable_name persist) "w"
              then Some "" else None) g in
  let g := set_xrange NaN NaN g in
  let g := set_yrange NaN NaN g in
  let g := set_zrange NaN NaN g in
  let g := snd (sendcommand ("set encoding utf8" +:+ nl) g) in
  snd (sendcommand "set minussign" g).

Definition redirect_to_png (filename size : string) (g : Gnuplot) : bool * Gnuplot :=
  sendcommand ("set terminal pngcairo color enhanced size " +:+ size +:+ nl
               +:+ "set output '" +:+ filename +:+ "'" +:+ nl) g.

Definition redirect_to_pdf (filename size : string) (g : Gnuplot) : bool * Gnuplot :=
  sendcommand ("set terminal pdfcairo color enhanced size " +:+ size +:+ nl
               +:+ "set output '" +:+ filename +:+ "'" +:+ nl) g.

Definition redirect_to_svg (filename size : string) (g : Gnuplot) : bool * Gnuplot :=
  sendcommand ("set terminal svg enhanced mouse standalone size " +:+ size +:+ nl
               +:+ "set output '" +:+ filename +:+ "'" +:+ nl) g.

(** [width] and [height] are [unsigned int]. *)
Definition redirect_to_dumb (filename : string) (width height : N)
    (mode : TerminalMode) (g : Gnuplot) : bool * Gnuplot :=
  let os := "set terminal dumb size " +:+ print width +:+ " " +:+ print height in
  let os := os +:+ match mode with
                   | MONO => "mono"
                   | ANSI => "ansi"
                   | ANSI256 => "ansi256"
                   | ANSIRGB => "ansirgb"
                   end in
  let os := os +:+ nl in
  let os := if nonempty filename
            then os +:+ "set output '" +:+ filename +:+ "'" +:+ nl else os in
  sendcommand os g.

Definition set_xlabel (label : string) (g : Gnuplot) : bool * Gnuplot :=
  sendcommand ("set xlabel '" +:+ escape_quotes label +:+ "'") g.

Definition set_ylabel (label : string) (g : Gnuplot) : bool * Gnuplot :=
  sendcommand ("set ylabel '" +:+ escape_quotes label +:+ "'") g.

Definition set_logscale (scale : AxisScale) (g : Gnuplot) : bool * Gnuplot :=
  match scale with
  | LOGX => sendcommand "set logscale x" g
  | LOGY => sendcommand "set logscale y" g
  | LOGXY => sendcommand "set logscale xy" g
  | LINEAR => sendcommand "unset logscale" g
  end.

(** [nrows] and [ncols] are [int]. *)
Definition multiplot (nrows ncols : Z) (title : string) (g : Gnuplot) : bool * Gnuplot :=
  sendcommand ("set multiplot layout " +:+ print nrows +:+ ", " +:+ print ncols
               +:+ " title '" +:+ escape_quotes title +:+ "'" +:+ nl) g.

(** *** Adding a series *)

(** [_print_ith_elements(os, fmts, index, i, v, args...)]: the variadic
    recursion runs over the list [vs] of the vectors still to be printed; the
    two streams are threaded through. *)
Fixpoint _print_ith_elements (os fmts : string) (index : Z) (i : nat)
    (vs : list (list T)) : result (string * string) :=
  match vs with
  | [] => Ok (os, fmts)
  | v :: args =>
      match v !! i with
      | None => Fault (Undefined read_past_the_end)
      | Some x =>
          let os := os +:+ print x +:+ " " in
          let fmts :=
            if (i =? 0)%nat then
              (if 1 <? index then fmts +:+ ":" else fmts) +:+ print index
            else fmts in
          _print_ith_elements os fmts (index + 1) i args
      end
  end.

(** The loop [for (size_t i{}; i < v.size(); ++i)] of [_plot], with [todo]
    iterations left, the next one at [i]; [of_] is the stream [of]. *)
Fixpoint _plot_loop (todo i : nat) (vs : list (list T)) (of_ fmtstring : string)
    : result (string * string) :=
  match todo with
  | O => Ok (of_, fmtstring)
  | S todo' =>
      '(of_, fmtstring) ← _print_ith_elements of_ fmtstring 1 i vs;
      _plot_loop todo' (S i) vs (of_ +:+ nl) fmtstring
  end.

Definition _plot (label : string) (style : LineStyle) (is_this_3dplot : bool)
    (v : list T) (args : list (list T)) (g : Gnuplot) : result Gnuplot :=
  match v with
  | [] => Ok g
  | _ :: _ =>
      if negb (bool_decide (series g = [])) && negb (eqb (is_3dplot g) is_this_3dplot)
      then Fault (AssertionFailed same_dimensionality)
      else
        '(of_, fmtstring) ← _plot_loop (length v) 0 (v :: args) "" "";
        Ok (with_is_3dplot is_this_3dplot
              (with_series
                 (series g ++ [ {| data_string := of_; line_style := style;
                                   title := label; column_range := fmtstring |} ])
                 g))
  end.

Definition plot_y (y : list T) (label : string) (style : LineStyle) :=
  _plot label style false y [].

Definition plot (x y : list T) (label : string) (style : LineStyle) :=
  _plot label style false x [y].

Definition plot_xerr (x y err : list T) (label : string) :=
  _plot label X_ERROR_BARS false x [y; err].

Definition plot_yerr (x y err : list T) (label : string) :=
  _plot label Y_ERROR_BARS false x [y; err].

Definition plot_xyerr (x y xerr yerr : list T) (label : string) :=
  _plot label XY_ERROR_BARS false x [y; xerr; yerr].

Definition plot_vectors (x y vx vy : list T) (label : string) :=
  _plot label VECTORS false x [y; vx; vy].

Definition plot3d (x y z : list T) (label : string) (style : LineStyle) :=
  _plot label style true x [y; z].

Definition plot_vectors3d (x y z vx vy vz : list T) (label : string) :=
  _plot label VECTORS true x [y; z; vx; vy; vz].

(** *** The text of a series, as the specification describes it *)

(** The elements number [i] of the vectors [vs] that have one. *)
Definition row_at (i : nat) (vs : list (list T)) : list T :=
  omap (fun v => v !! i) vs.

(** The rows of the first [n] elements of [vs], when every vector has that
    many. *)
Definition rows (n : nat) (vs : list (list T)) : list (list T) :=
  map (fun i => row_at i vs) (seq 0 n).

(** One data line: every element followed by a blank. *)
Definition row_text (xs : list T) : string :=
  Text.concat (map (fun x => print x +:+ " ") xs).

(** The first [n] rows of the vectors [vs], a line each. *)
Definition rows_text (n : nat) (vs : list (list T)) : string :=
  Text.concat (map (fun i => row_text (row_at i vs) +:+ nl) (seq 0 n)).

(** [index:index+1:...], [k] numbers in all; the first has no colon before it
    when it is [1]. *)
Fixpoint column_numbers (index : Z) (k : nat) : string :=
  match k with
  | O => ""
  | S k' =>
      (if 1 <? index then ":" else "") +:+ print index
        +:+ column_numbers (index + 1) k'
  end.

(** *** [histogram]

    The template is taken at [T = double]: the values are binary64 numbers. *)

(** The bin of one value: [static_cast<int>((val - min) / binwidth)], lowered
    by one when it reaches [int(nbins)]. *)
Definition hist_index (min binwidth : binary64) (nbins : N) (val : binary64)
    : result Z :=
  index ← static_cast_int (double_div (double_sub val min) binwidth);
  if int_of_size_t nbins <=? index then decrement index else Ok index.

(** [std::vector<size_t> bins(nbins)] *)
Definition new_bins (nbins : N) : result (list N) :=
  match allocate nbins with
  | allocated => Ok (replicate (N.to_nat nbins) 0%N)
  | length_error => Fault LengthError
  | bad_alloc => Fault BadAlloc
  end.

(** [bins.at(index)++]; the counter is not wrapped at [2^64], as no vector
    holds that many values to count. *)
Definition at_increment (index : Z) (bins : list N) : result (list N) :=
  let pos := size_t_of_int index in
  if (pos <? N.of_nat (length bins))%N
  then Ok (alter N.succ (N.to_nat pos) bins)
  else Fault OutOfRange.

Fixpoint hist_fill (min binwidth : binary64) (nbins : N) (values : list binary64)
    (bins : list N) : result (list N) :=
  match values with
  | [] => Ok bins
  | val :: rest =>
      index ← hist_index min binwidth nbins val;
      bins ← at_increment index bins;
      hist_fill min binwidth nbins rest bins
  end.

(** [min + binwidth * (i + 0.5)], each operation rounded *)
Definition bin_center (min binwidth : binary64) (i : N) : binary64 :=
  double_add min (double_mul binwidth (double_add (double_of_size_t i) one_half)).

(** The loop [for (size_t i{}; i < nbins; ++i)] that prints the rows, with
    [todo] iterations left. *)
Fixpoint hist_print (todo : nat) (i : N) (min binwidth : binary64) (bins : list N)
    (of_ : string) : result string :=
  match todo with
  | O => Ok of_
  | S todo' =>
      match bins !! N.to_nat i with
      | None => Fault (Undefined read_past_the_end)
      | Some count =>
          hist_print todo' (i + 1)%N min binwidth bins
            (of_ +:+ print (bin_center min binwidth i) +:+ " " +:+ print count +:+ nl)
      end
  end.

Definition histogram (values : list binary64) (nbins : N) (label : string)
    (style : LineStyle) (g : Gnuplot) : result Gnuplot :=
  if (nbins =? 0)%N then Fault (AssertionFailed nbins_positive)
  else
    match values with
    | [] => Ok g
    | _ :: _ =>
        if negb (bool_decide (series g = [])) && is_3dplot g
        then Fault (AssertionFailed not_3dplot)
        else
          match min_element values, max_element values with
          | Some min, Some max =>
              let binwidth :=
                double_div (double_sub max min) (double_of_size_t nbins) in
              bins ← new_bins nbins;
              bins ← hist_fill min binwidth nbins values bins;
              of_ ← hist_print (N.to_nat nbins) 0 min binwidth bins "";
              Ok (with_is_3dplot false
                    (with_series
                       (series g ++ [ {| data_string := of_; line_style := style;
                                         title := label; column_range := "1:2" |} ])
                       g))
          | _, _ => Fault (Undefined read_past_the_end)
          end
    end.

(** *** The rows of a histogram, bin by bin *)

(** The bin that [histogram] counts a value in, when it counts it. *)
Definition bin_of (min binwidth : binary64) (nbins : N) (val : binary64) : option N :=
  match hist_index min binwidth nbins val with
  | Ok index =>
      if (size_t_of_int index <? nbins)%N then Some (size_t_of_int index) else None
  | Fault _ => None
  end.

(** How many of the values are counted in bin [i]. *)
Definition count_in_bin (min binwidth : binary64) (nbins : N) (values : list binary64)
    (i : N) : N :=
  N.of_nat
    (length (filter (fun val => bin_of min binwidth nbins val = Some i) values)).

(** [0, 1, ..., nbins - 1] *)
Definition bin_numbers (nbins : N) : list N :=
  map N.of_nat (seq 0 (N.to_nat nbins)).

Definition sum_N (l : list N) : N := foldr N.add 0%N l.

(** The line of bin [i]: its center, a blank, its count. *)
Definition histogram_row (min binwidth : binary64) (i count : N) : string :=
  print (bin_center min binwidth i) +:+ " " +:+ print count +:+ nl.

(** *** [show] and the calls of a program *)

(** The first loop of [show]: one inline data block per pending series. *)
Fixpoint show_datablocks (ss : list GnuplotSeries) (i : N) (os : string) : string :=
  match ss with
  | [] => os
  | s :: ss' =>
      show_datablocks ss' (i + 1)%N
        (os +:+ "$Datablock" +:+ print i +:+ " << EOD" +:+ nl
            +:+ data_string s +:+ nl +:+ "EOD" +:+ nl)
  end.

(** The second loop: one clause per series, a comma between two clauses. *)
Fixpoint show_clauses (ss : list GnuplotSeries) (i : N) (os : string) : string :=
  match ss with
  | [] => os
  | s :: ss' =>
      let os := os +:+ "$Datablock" +:+ print i +:+ " using " +:+ column_range s
                   +:+ " with " +:+ style_to_str (line_style s)
                   +:+ " title '" +:+ escape_quotes (title s) +:+ "'" in
      let os := match ss' with [] => os | _ :: _ => os +:+ ", " end in
      show_clauses ss' (i + 1)%N os
  end.

(** The text [show] builds in [os] for a non-empty list of series. *)
Definition show_text (g : Gnuplot) : string :=
  let os := "set style fill solid 0.5" +:+ nl in
  let os := show_datablocks (series g) 0 os in
  let os :=
    if is_3dplot g
    then os +:+ "splot " +:+ xrange g +:+ " " +:+ yrange g +:+ " " +:+ zrange g +:+ " "
    else os +:+ "plot " +:+ xrange g +:+ " " +:+ yrange g +:+ " " in
  show_clauses (series g) 0 os.

(** The last line of that text when [s] is the only pending series. *)
Definition plot_command (g : Gnuplot) (s : GnuplotSeries) : string :=
  (if is_3dplot g
   then "splot " +:+ xrange g +:+ " " +:+ yrange g +:+ " " +:+ zrange g +:+ " "
   else "plot " +:+ xrange g +:+ " " +:+ yrange g +:+ " ")
  +:+ "$Datablock" +:+ print 0%N +:+ " using " +:+ column_range s
  +:+ " with " +:+ style_to_str (line_style s)
  +:+ " title '" +:+ escape_quotes (title s) +:+ "'".

Definition show (call_reset : bool) (g : Gnuplot) : bool * Gnuplot :=
  match series g with
  | [] => (true, g)
  | _ :: _ =>
      let '(result, g') := sendcommand (show_text g) g in
      if result && call_reset then (result, reset g') else (result, g')
  end.

(** The public methods, as the calls a client program can make. *)
Inductive call :=
  | call_sendcommand (str : string)
  | call_redirect_to_png (filename size : string)
  | call_redirect_to_pdf (filename size : string)
  | call_redirect_to_svg (filename size : string)
  | call_redirect_to_dumb (filename : string) (width height : N) (mode : TerminalMode)
  | call_set_xlabel (label : string)
  | call_set_ylabel (label : string)
  | call_set_xrange (min max : double)
  | call_set_yrange (min max : double)
  | call_set_zrange (min max : double)
  | call_set_logscale (scale : AxisScale)
  | call_plot_y (y : list T) (label : string) (style : LineStyle)
  | call_plot (x y : list T) (label : string) (style : LineStyle)
  | call_plot_xerr (x y err : list T) (label : string)
  | call_plot_yerr (x y err : list T) (label : string)
  | call_plot_xyerr (x y xerr yerr : list T) (label : string)
  | call_plot_vectors (x y vx vy : list T) (label : string)
  | call_plot3d (x y z : list T) (label : string) (style : LineStyle)
  | call_plot_vectors3d (x y z vx vy vz : list T) (label : string)
  | call_histogram (values : list binary64) (nbins : N) (label : string)
      (style : LineStyle)
  | call_multiplot (nrows ncols : Z) (title : string)
  | call_show (call_reset : bool)
  | call_reset.

Definition step (c : call) (g : Gnuplot) : result Gnuplot :=
  match c with
  | call_sendcommand str => Ok (snd (sendcommand str g))
  | call_redirect_to_png f size => Ok (snd (redirect_to_png f size g))
  | call_redirect_to_pdf f size => Ok (snd (redirect_to_pdf f size g))
  | call_redirect_to_svg f size => Ok (snd (redirect_to_svg f size g))
  | call_redirect_to_dumb f w h mode => Ok (snd (redirect_to_dumb f w h mode g))
  | call_set_xlabel l => Ok (snd (set_xlabel l g))
  | call_set_ylabel l => Ok (snd (set_ylabel l g))
  | call_set_xrange lo hi => Ok (set_xrange lo hi g)
  | call_set_yrange lo hi => Ok (set_yrange lo hi g)
  | call_set_zrange lo hi => Ok (set_zrange lo hi g)
  | call_set_logscale scale => Ok (snd (set_logscale scale g))
  | call_plot_y y l st => plot_y y l st g
  | call_plot x y l st => plot x y l st g
  | call_plot_xerr x y e l => plot_xerr x y e l g
  | call_plot_yerr x y e l => plot_yerr x y e l g
  | call_plot_xyerr x y xe ye l => plot_xyerr x y xe ye l g
  | call_plot_vectors x y vx vy l => plot_vectors x y vx vy l g
  | call_plot3d x y z l st => plot3d x y z l st g
  | call_plot_vectors3d x y z vx vy vz l => plot_vectors3d x y z vx vy vz l g
  | call_histogram values nbins l st => histogram values nbins l st g
  | call_multiplot r c t => Ok (snd (multiplot r c t g))
  | call_show reset_after => Ok (snd (show reset_after g))
  | call_reset => Ok (reset g)
  end.

Fixpoint run (cs : list call) (g : Gnuplot) : result Gnuplot :=
  match cs with
  | [] => Ok g
  | c :: cs' => g' ← step c g; run cs' g'
  end.

(** A session a program can be in: built by the constructor, then driven by
    calls that all returned. *)
Definition reachable (g : Gnuplot) : Prop :=
  exists executable_name persist safe_popen cs,
    run cs (Gnuplot_new executable_name persist safe_popen) = Ok g.

(** [Some d] for a call that adds a series from a non-empty first vector,
    [d] telling whether the series is three-dimensional. *)
Definition added_dimension (c : call) : option bool :=
  let of_first {A} (v : list A) (d : bool) :=
    match v with [] => None | _ :: _ => Some d end in
  match c with
  | call_plot_y y _ _ => of_first y false
  | call_plot x _ _ _ => of_first x false
  | call_plot_xerr x _ _ _ => of_first x false
  | call_plot_yerr x _ _ _ => of_first x false
  | call_plot_xyerr x _ _ _ _ => of_first x false
  | call_plot_vectors x _ _ _ _ => of_first x false
  | call_plot3d x _ _ _ _ => of_first x true
  | call_plot_vectors3d x _ _ _ _ _ _ => of_first x true
  | call_histogram values _ _ _ => of_first values false
  | _ => None
  end.

(** Whether the call, made in session [g], executes [reset()]. *)
Definition runs_reset (c : call) (g : Gnuplot) : bool :=
  match c with
  | call_reset => true
  | call_show reset_after => negb (bool_decide (series g = [])) && ok g && reset_after
  | _ => false
  end.

(** A run in which [reset()] is never executed. *)
Fixpoint never_resets (cs : list call) (g : Gnuplot) : bool :=
  match cs with
  | [] => true
  | c :: cs' =>
      negb (runs_reset c g)
      && match step c g with
         | Ok g' => never_resets cs' g'
         | Fault _ => true
         end
  end.

(** The series [_plot] appends when no vector is shorter than the first:
    the first [v.size()] rows of the vectors and the column numbers
    [1:...:k], [k] the number of vectors. *)
Definition plotted_series (label : string) (style : LineStyle)
    (v : list T) (args : list (list T)) : GnuplotSeries :=
  {| data_string := rows_text (length v) (v :: args);
     line_style := style;
     title := label;
     column_range := column_numbers 1 (S (length args)) |}.

(** The first vector and the other vectors of a call that ends in [_plot]. *)
Definition plotted_vectors (c : call) : option (list T * list (list T)) :=
  match c with
  | call_plot_y y _ _ => Some (y, [])
  | call_plot x y _ _ => Some (x, [y])
  | call_plot_xerr x y err _ => Some (x, [y; err])
  | call_plot_yerr x y err _ => Some (x, [y; err])
  | call_plot_xyerr x y xerr yerr _ => Some (x, [y; xerr; yerr])
  | call_plot_vectors x y vx vy _ => Some (x, [y; vx; vy])
  | call_plot3d x y z _ _ => Some (x, [y; z])
  | call_plot_vectors3d x y z vx vy vz _ => Some (x, [y; z; vx; vy; vz])
  | _ => None
  end.

End Methods.

Arguments call T : clear implicits.

(** ** The default text of a [double]

    A stream prints a finite [double] like [printf("%g")]: six significant
    digits, rounded to nearest (ties to even), trailing zeros dropped, and the
    exponent form when the decimal exponent is below [-4] or at least [6].
    The theorems below hold for any printing of numbers; this one is used to
    run the methods on concrete data. *)

Module DefaultFormat.

Definition pow10 (e : Z) : Q :=
  if 0 <=? e then inject_Z (10 ^ e) else (1 / inject_Z (10 ^ (- e)))%Q.

(** The number of decimal digits of a positive integer. *)
Definition digits (n : Z) : Z := Z.of_nat (String.length (print n)).

(** The [X] with [10^X <= a < 10^(X+1)], for a positive [a]. *)
Definition decimal_exponent (a : Q) : Z :=
  let guess := digits (Qnum a) - digits (Z.pos (Qden a)) in
  if Qle_bool (pow10 guess) a then guess else guess - 1.

Definition round_half_even (x : Q) : Z :=
  let f := Qfloor x in
  match (x - inject_Z f ?= 1 # 2)%Q with
  | Lt => f
  | Gt => f + 1
  | Eq => if Z.even f then f else f + 1
  end.

Fixpoint drop_leading_zeros (s : string) : string :=
  match s with
  | String c s' => if Ascii.eqb c "0" then drop_leading_zeros s' else s
  | EmptyString => s
  end.

Definition strip_trailing_zeros (s : string) : string :=
  String.rev (drop_leading_zeros (String.rev s)).

Definition with_fraction (whole fraction : string) : string :=
  let fraction := strip_trailing_zeros fraction in
  if nonempty fraction then whole +:+ "." +:+ fraction else whole.

Definition exponent_suffix (X : Z) : string :=
  "e" +:+ (if X <? 0 then "-" else "+")
      +:+ (if Z.abs X <? 10 then "0" else "") +:+ print (Z.abs X).

Definition zeros (n : Z) : string := Text.concat (replicate (Z.to_nat n) "0").

(** A positive [a]. *)
Definition print_positive (a : Q) : string :=
  let X := decimal_exponent a in
  let m := round_half_even (a / pow10 (X - 5)) in
  let '(X, m) := if m =? 10 ^ 6 then (X + 1, 10 ^ 5) else (X, m) in
  let ds := print m in
  if (X <? -4) || (6 <=? X) then
    with_fraction (String.substring 0 1 ds) (String.substring 1 5 ds)
      +:+ exponent_suffix X
  else if 0 <=? X then
    with_fraction (String.substring 0 (Z.to_nat (X + 1)) ds)
                  (String.substring (Z.to_nat (X + 1)) (Z.to_nat (5 - X)) ds)
  else
    with_fraction "0" (zeros (- X - 1) +:+ ds).

Definition print_g : Print Q := fun x =>
  match Qnum x with
  | Z0 => "0"
  | Z.pos _ => print_positive x
  | Z.neg _ => "-" +:+ print_positive (- x)
  end.

(** The value of a finite binary64 number. *)
Definition value (s : bool) (m : positive) (e : Z) : Q :=
  let a := if 0 <=? e then inject_Z (Z.pos m * 2 ^ e)
           else Z.pos m # Z.to_pos (2 ^ (- e)) in
  if s then (- a)%Q else a.

Definition print_binary64_g : Print binary64 := fun x =>
  match x with
  | S754_zero s => if s then "-0" else "0"
  | S754_infinity s => if s then "-inf" else "inf"
  | S754_nan => "nan"
  | S754_finite s m e => print_g (value s m e)
  end.

End DefaultFormat.

(** ** Sessions to run the methods on *)

Module Demo.

#[local] Existing Instance DefaultFormat.print_g.
#[local] Existing Instance DefaultFormat.print_binary64_g.
Local Open Scope Q_scope.

(** The doubles nearest to a list of integers. *)
Definition doubles (zs : list Z) : list binary64 := map double_of_Z zs.

(** A heap with room for a million counters, and no more. *)
Definition small_heap : Heap :=
  fun n => if (n <=? 1000000)%N then allocated else bad_alloc.
#[local] Existing Instance small_heap.

(** A session whose gnuplot process has started; numbers print in the
    default format. *)
Definition fresh : Gnuplot := Gnuplot_new "gnuplot" true (fun _ _ => true).

(** The session a call has returned, when it has returned. *)
Definition returned (r : result Gnuplot) : Gnuplot :=
  match r with
  | Ok g => g
  | Fault _ => fresh
  end.

(** No pending series, and an X range from 0 to 6. *)
Definition fixed_x_range : Gnuplot := set_xrange (Num 0) (Num 6) fresh.

(** One pending series, and fixed X and Z ranges. *)
Definition ready_to_show : Gnuplot :=
  set_zrange (Num 0) (Num 1)
    (set_xrange (Num 0) (Num 6) (returned (plot [1; 2] [3; 4] "" LINES fresh))).

(** A 3D series, followed by calls that do not reset. *)
Definition first_3d : call Q := call_plot3d [1] [2] [3] "" LINES.

Definition more_calls : list (call Q) :=
  [call_set_xrange (Num 0) (Num 6); call_show false; call_histogram [] 2 "" BOXES].

Definition after_first_3d : Gnuplot := returned (step first_3d fresh).

Definition after_more_calls : Gnuplot := returned (run more_calls after_first_3d).

(** A whole program: plot to a file, then show. *)
Definition script : list (call Q) :=
  [call_redirect_to_png "plot.png" "800,600";
   call_plot [1; 2] [3; 4] "data" LINES;
   call_show true].

Definition after_script : Gnuplot := returned (run script fresh).

End Demo.

(** ** Descriptions used by the properties of whole sessions *)

(** A method that sends one command: it returns whether the connection is
    open, leaves everything but the connection as it was, does nothing at all
    on a closed connection, and on an open one adds one text and a line feed
    to what was sent. *)
Definition command_method (m : Gnuplot -> bool * Gnuplot) : Prop :=
  forall g,
    fst (m g) = ok g
    /\ same_but_connection g (snd (m g))
    /\ (ok g = false -> snd (m g) = g)
    /\ (forall sent, connection g = Some sent ->
        exists text, connection (snd (m g)) = Some (sent +:+ text +:+ nl)).

(** A text made of whole lines: empty, or closed by a line feed. *)
Definition whole_lines (s : string) : Prop :=
  s = "" \/ exists body, s = body +:+ nl.

(** [g'] has the connection of [g], open or closed alike, and what it has
    received is what [g] had received followed by whole lines. *)
Definition connection_grows (g g' : Gnuplot) : Prop :=
  ok g' = ok g
  /\ forall sent, connection g = Some sent ->
       exists more, connection g' = Some (sent +:+ more) /\ whole_lines more.

(** What the constructor sends. *)
Definition preamble : string :=
  "set encoding utf8" +:+ nl +:+ nl +:+ "set minussign" +:+ nl.

(** The character between two column numbers of a descriptor. *)
Definition colon : ascii := ":"%char.

(** The word [redirect_to_dumb] writes for a terminal mode. *)
Definition mode_word (mode : TerminalMode) : string :=
  match mode with
  | MONO => "mono"
  | ANSI => "ansi"
  | ANSI256 => "ansi256"
  | ANSIRGB => "ansirgb"
  end.

(** The inline data block number [i], holding the data of [s]. *)
Definition datablock_text (i : nat) (s : GnuplotSeries) : string :=
  "$Datablock" +:+ print (N.of_nat i) +:+ " << EOD" +:+ nl
  +:+ data_string s +:+ nl +:+ "EOD" +:+ nl.

(** The clause of the plot command that draws block number [i]. *)
Definition clause_text (i : nat) (s : GnuplotSeries) : string :=
  "$Datablock" +:+ print (N.of_nat i) +:+ " using " +:+ column_range s
  +:+ " with " +:+ style_to_str (line_style s)
  +:+ " title '" +:+ escape_quotes (title s) +:+ "'".

(** The start of the plot command: the verb and the ranges. *)
Definition plot_prefix (g : Gnuplot) : string :=
  if is_3dplot g
  then "splot " +:+ xrange g +:+ " " +:+ yrange g +:+ " " +:+ zrange g +:+ " "
  else "plot " +:+ xrange g +:+ " " +:+ yrange g +:+ " ".

(** The calls that set a range. *)
Definition sets_xrange {T : Type} (c : call T) : bool :=
  match c with call_set_xrange _ _ => true | _ => false end.

Definition sets_yrange {T : Type} (c : call T) : bool :=
  match c with call_set_yrange _ _ => true | _ => false end.

Definition sets_zrange {T : Type} (c : call T) : bool :=
  match c with call_set_zrange _ _ => true | _ => false end.

Section Invariant.

Context {print_Q : Print Q}.

(** A pending series as the methods build them: its data are not empty and
    end with a line feed, and its column descriptor starts with column 1. *)
Definition built_series (s : GnuplotSeries) : Prop :=
  (exists body, data_string s = body +:+ nl)
  /\ (exists rest, column_range s = "1" +:+ rest).

(** What holds of every session a program can reach. *)
Definition session_invariant (g : Gnuplot) : Prop :=
  (is_3dplot g = true -> series g <> [])
  /\ (exists lo hi, xrange g = format_range lo hi)
  /\ (exists lo hi, yrange g = format_range lo hi)
  /\ (exists lo hi, zrange g = format_range lo hi)
  /\ Forall built_series (series g).

End Invariant.

(** * Properties *)

(** ** Text *)

Module TextFacts.

Lemma app_nil_l (s : string) : "" +:+ s = s.
Proof. reflexivity. Qed.

Lemma app_cons (c : ascii) (s t : string) : String c s +:+ t = String c (s +:+ t).
Proof. reflexivity. Qed.

Lemma app_nil_r (s : string) : s +:+ "" = s.
Proof. induction s as [|c s IH]; [reflexivity|]. rewrite app_cons, IH. reflexivity. Qed.

Lemma app_assoc (s t u : string) : (s +:+ t) +:+ u = s +:+ (t +:+ u).
Proof.
  induction s as [|c s IH]; [reflexivity|].
  rewrite !app_cons, IH. reflexivity.
Qed.

Lemma count_char_app (c : ascii) (s t : string) :
  count_char c (s +:+ t) = (count_char c s + count_char c t)%nat.
Proof.
  induction s as [|a s IH]; [reflexivity|].
  rewrite app_cons. simpl. rewrite IH. lia.
Qed.

Lemma lacks_app (c : ascii) (s t : string) :
  lacks c (s +:+ t) <-> lacks c s /\ lacks c t.
Proof. unfold lacks. rewrite count_char_app. lia. Qed.

Lemma lacks_cons (c a : ascii) (s : string) :
  lacks c (String a s) <-> a <> c /\ lacks c s.
Proof.
  unfold lacks. simpl. destruct (Ascii.eqb_spec a c) as [->|Hne].
  - split; [lia | intros [[] _]; reflexivity].
  - split; [intros; split; [assumption | lia] | intros [_ ?]; lia].
Qed.

Lemma lacks_nil (c : ascii) : lacks c "".
Proof. reflexivity. Qed.

Lemma split_on_app (sep : ascii) (s t : string) :
  lacks sep s -> split_on sep (s +:+ String sep t) = s :: split_on sep t.
Proof.
  induction s as [|a s IH]; intros H.
  - rewrite app_nil_l. simpl. now rewrite Ascii.eqb_refl.
  - apply lacks_cons in H as [Ha Hs]. rewrite app_cons. simpl.
    destruct (Ascii.eqb_spec a sep) as [?|_]; [contradiction|].
    now rewrite (IH Hs).
Qed.

Lemma split_on_lacks (sep : ascii) (s : string) :
  lacks sep s -> split_on sep s = [s].
Proof.
  induction s as [|a s IH]; intros H; [reflexivity|].
  apply lacks_cons in H as [Ha Hs]. simpl.
  destruct (Ascii.eqb_spec a sep) as [?|_]; [contradiction|].
  now rewrite (IH Hs).
Qed.

(** The lines of a text that starts with the lines [rs], each closed by a
    line feed. *)
Lemma lines_app (rs : list string) (rest : string) :
  Forall (lacks newline) rs ->
  lines (concat (map (fun r => r +:+ nl) rs) +:+ rest) = rs ++ lines rest.
Proof.
  induction 1 as [|r rs Hr _ IH]; [reflexivity|].
  simpl. unfold nl. rewrite !app_assoc, app_cons, app_nil_l.
  unfold lines in *. rewrite (split_on_app _ _ _ Hr). f_equal. exact IH.
Qed.

Lemma lines_one (r rest : string) :
  lacks newline r -> lines (r +:+ nl +:+ rest) = r :: lines rest.
Proof. intros Hr. apply (split_on_app _ _ _ Hr). Qed.

Lemma fields_app (s t : string) :
  s <> "" -> lacks space s -> fields (s +:+ String space t) = s :: fields t.
Proof.
  intros Hne Hs. unfold fields. rewrite (split_on_app _ _ _ Hs).
  rewrite filter_cons. destruct s; [contradiction|]. reflexivity.
Qed.

Lemma fields_last (s : string) :
  s <> "" -> lacks space s -> fields s = [s].
Proof.
  intros Hne Hs. unfold fields. rewrite (split_on_lacks _ _ Hs).
  destruct s; [contradiction|]. reflexivity.
Qed.

Lemma concat_app (l1 l2 : list string) :
  concat (l1 ++ l2) = concat l1 +:+ concat l2.
Proof.
  induction l1 as [|s l1 IH]; [reflexivity|].
  simpl. now rewrite IH, app_assoc.
Qed.

End TextFacts.

Import TextFacts.

(** ** C strings *)

Lemma c_str_app (a b : string) : lacks nul a -> c_str (a +:+ b) = a +:+ c_str b.
Proof.
  induction a as [|x a IH]; intros H; [reflexivity|].
  apply lacks_cons in H as [Hx Ha]. rewrite !app_cons. cbn [c_str].
  destruct (Ascii.eqb_spec x nul) as [?|_]; [contradiction|]. now rewrite IH.
Qed.

Lemma c_str_lacks_nul (a : string) : lacks nul a -> c_str a = a.
Proof.
  intros H. rewrite <- (app_nil_r a) at 1. rewrite c_str_app by exact H.
  apply app_nil_r.
Qed.

Lemma c_str_keeps_lacks (c : ascii) (a : string) : lacks c a -> lacks c (c_str a).
Proof.
  induction a as [|x a IH]; intros H; [reflexivity|].
  apply lacks_cons in H as [Hx Ha]. cbn [c_str].
  destruct (Ascii.eqb x nul); [reflexivity|]. apply lacks_cons. auto.
Qed.

(** ** [escape_quotes] *)

Lemma escape_quotes_loop_spec (s result : string) :
  escape_quotes_loop s result = result +:+ double_each_quote s.
Proof.
  revert result. induction s as [|c s IH]; intros result; simpl.
  - now rewrite app_nil_r.
  - rewrite IH. destruct (Ascii.eqb c quote); simpl; now rewrite app_assoc.
Qed.

Lemma double_each_quote_lacks (s : string) :
  lacks quote s -> double_each_quote s = s.
Proof.
  induction s as [|c s IH]; [reflexivity|].
  intros [Hc Hs]%lacks_cons. simpl.
  destruct (Ascii.eqb_spec c quote) as [->|_]; [contradiction|].
  now rewrite IH.
Qed.

Lemma split_double_each_quote (s current : string) :
  split_on_lone_quotes (double_each_quote s) current = [current +:+ s].
Proof.
  revert current. induction s as [|c s IH]; intros current.
  - simpl. now rewrite app_nil_r.
  - simpl double_each_quote. destruct (Ascii.eqb_spec c quote) as [->|Hne].
    + simpl. rewrite IH. now rewrite app_assoc.
    + cbn [split_on_lone_quotes].
      destruct (Ascii.eqb_spec c quote) as [?|_]; [contradiction|].
      rewrite IH. now rewrite app_assoc.
Qed.

Lemma escape_quotes_eq (s : string) : escape_quotes s = double_each_quote s.
Proof. unfold escape_quotes. now rewrite escape_quotes_loop_spec. Qed.

(** C6. [escape_quotes] doubles every single quote of its argument and copies
    every other character in place; it gives one more character per quote;
    a text without quotes comes back as it is; and reading the result back,
    with two quotes in a row standing for a literal quote and a lone quote
    ending a piece, finds a single piece, the original text. *)
Theorem escape_quotes_doubles_quotes (s : string) :
  escape_quotes s = double_each_quote s
  /\ String.length (escape_quotes s) = (String.length s + count_char quote s)%nat
  /\ (lacks quote s -> escape_quotes s = s)
  /\ split_on_lone_quotes (escape_quotes s) "" = [s].
Proof.
  rewrite escape_quotes_eq. repeat split.
  - induction s as [|c s IH]; [reflexivity|].
    simpl. destruct (Ascii.eqb c quote); simpl; rewrite IH; lia.
  - apply double_each_quote_lacks.
  - apply split_double_each_quote.
Qed.

(** The text of the specification's example, [it's a test]. *)
Lemma escape_quotes_doubles_quotes_witness :
  escape_quotes "it's a test" = "it''s a test"
  /\ escape_quotes "Time [s]" = "Time [s]"
  /\ split_on_lone_quotes "it''s a test" "" = ["it's a test"].
Proof.
  split; [reflexivity|]. split.
  - apply (escape_quotes_doubles_quotes "Time [s]"). reflexivity.
  - apply (escape_quotes_doubles_quotes "it's a test").
Defined.

(** ** Ranges, [show] and [reset] *)

Section SessionFacts.

Context {T : Type} {print_T : Print T} {print_Q : Print Q}.
Context {print_binary64 : Print binary64} {heap : Heap}.

Lemma format_range_bounded (min max : double) :
  isnan min && isnan max = false ->
  format_range min max = "[" +:+ bound_text min +:+ ":" +:+ bound_text max +:+ "]".
Proof.
  intros H. unfold format_range, bound_text. rewrite H.
  destruct (isnan min), (isnan max); now rewrite ?app_assoc.
Qed.

(** C5. Each of the three range setters stores [format_range min max].  That
    text is ["[]"] when both bounds are NaN (automatic); otherwise it is
    ["[low:high]"], a [*] standing for an automatic bound.  As long as the
    printed numbers hold no [*], it has exactly one [*] when exactly one bound
    is automatic and none when both are fixed. *)
Theorem format_range_descriptor (min max : double) (g : Gnuplot) :
  xrange (set_xrange min max g) = format_range min max
  /\ yrange (set_yrange min max g) = format_range min max
  /\ zrange (set_zrange min max g) = format_range min max
  /\ (isnan min = true -> isnan max = true -> format_range min max = "[]")
  /\ (isnan min && isnan max = false ->
      format_range min max = "[" +:+ bound_text min +:+ ":" +:+ bound_text max +:+ "]")
  /\ (isnan min = true -> isnan max = false -> lacks star (print max) ->
      format_range min max = "[*:" +:+ print max +:+ "]"
      /\ count_char star (format_range min max) = 1%nat)
  /\ (isnan min = false -> isnan max = true -> lacks star (print min) ->
      format_range min max = "[" +:+ print min +:+ ":*]"
      /\ count_char star (format_range min max) = 1%nat)
  /\ (isnan min = false -> isnan max = false ->
      lacks star (print min) -> lacks star (print max) ->
      format_range min max = "[" +:+ print min +:+ ":" +:+ print max +:+ "]"
      /\ count_char star (format_range min max) = 0%nat).
Proof.
  repeat split; try reflexivity.
  - intros Hmin Hmax. unfold format_range. now rewrite Hmin, Hmax.
  - apply format_range_bounded.
  - rewrite format_range_bounded by (rewrite H, H0; reflexivity).
    unfold bound_text. now rewrite H, H0.
  - rewrite format_range_bounded by (rewrite H, H0; reflexivity).
    unfold bound_text. rewrite H, H0, !count_char_app, H1. reflexivity.
  - rewrite format_range_bounded by (rewrite H; reflexivity).
    unfold bound_text. now rewrite H, H0.
  - rewrite format_range_bounded by (rewrite H; reflexivity).
    unfold bound_text. rewrite H, H0, !count_char_app, H1. reflexivity.
  - rewrite format_range_bounded by (rewrite H; reflexivity).
    unfold bound_text. now rewrite H, H0.
  - rewrite format_range_bounded by (rewrite H; reflexivity).
    unfold bound_text. rewrite H, H0, !count_char_app, H1, H2. reflexivity.
Qed.

Lemma sendcommand_dead (str : string) (g : Gnuplot) :
  ok g = false -> sendcommand str g = (false, g).
Proof. unfold ok, sendcommand. now destruct (connection g). Qed.

Lemma sendcommand_alive (str : string) (g : Gnuplot) (sent : string) :
  connection g = Some sent ->
  sendcommand str g = (true, with_connection (Some (sent +:+ c_str str +:+ nl)) g).
Proof. unfold sendcommand. now intros ->. Qed.

(** C9. With no pending series, [show] returns [true] and hands back the
    session it was given: nothing is written to the connection and no field
    changes, whatever [call_reset] is and whether the connection is open or
    not. *)
Theorem show_without_series (call_reset : bool) (g : Gnuplot) :
  series g = [] ->
  show call_reset g = (true, g)
  /\ connection (snd (show call_reset g)) = connection g.
Proof. intros H. unfold show. rewrite H. split; reflexivity. Qed.

(** The fields [reset] leaves alone and the ones it sets. *)
Lemma reset_fields (g : Gnuplot) :
  series (reset g) = []
  /\ xrange (reset g) = "[]"
  /\ yrange (reset g) = "[]"
  /\ is_3dplot (reset g) = false
  /\ zrange (reset g) = zrange g
  /\ connection (reset g) = connection g
  /\ files_to_delete (reset g) = files_to_delete g.
Proof. repeat split. Qed.

(** C7, as the code has it.  [reset] empties the pending list, stores ["[]"]
    as X and Y range, clears the 3D flag and keeps the Z range.  [show(true)]
    does the same after it has sent the text of a non-empty pending list over
    an open connection.  When the connection is closed, [show] returns
    [false] and the session is untouched.  With an empty pending list [show]
    returns [true] without running [reset], so the ranges stay as they
    were. *)
Theorem show_resets_after_sending (g : Gnuplot) :
  (series (reset g) = [] /\ xrange (reset g) = "[]" /\ yrange (reset g) = "[]"
   /\ is_3dplot (reset g) = false /\ zrange (reset g) = zrange g)
  /\ (series g <> [] -> ok g = true ->
      exists sent,
        connection g = Some sent
        /\ show true g
           = (true, reset (with_connection (Some (sent +:+ c_str (show_text g) +:+ nl)) g))
        /\ series (snd (show true g)) = []
        /\ xrange (snd (show true g)) = "[]"
        /\ yrange (snd (show true g)) = "[]"
        /\ is_3dplot (snd (show true g)) = false
        /\ zrange (snd (show true g)) = zrange g)
  /\ (forall call_reset, series g <> [] -> ok g = false ->
      show call_reset g = (false, g))
  /\ (forall call_reset, fst (show call_reset g) = false ->
      snd (show call_reset g) = g)
  /\ (forall call_reset, series g = [] -> show call_reset g = (true, g)).
Proof.
  split; [repeat split|]. split; [|split; [|split]].
  - intros Hs Hok. unfold ok in Hok.
    destruct (connection g) as [sent|] eqn:Hc; [|discriminate].
    exists sent. split; [reflexivity|].
    assert (Hshow : show true g
      = (true, reset (with_connection (Some (sent +:+ c_str (show_text g) +:+ nl)) g))).
    { unfold show. destruct (series g); [contradiction|].
      now rewrite (sendcommand_alive _ _ _ Hc). }
    rewrite Hshow. repeat split.
  - intros call_reset Hs Hok. unfold show.
    destruct (series g); [contradiction|].
    now rewrite sendcommand_dead.
  - intros call_reset. unfold show. destruct (series g); [discriminate|].
    unfold sendcommand. destruct (connection g); [|reflexivity].
    destruct call_reset; discriminate.
  - intros call_reset Hs. unfold show. now rewrite Hs.
Qed.

End SessionFacts.

(** ** What a call can change *)

Section CallFacts.

Context {T : Type} {print_T : Print T} {print_Q : Print Q}.
Context {print_binary64 : Print binary64} {heap : Heap}.

Lemma sendcommand_frame (str : string) (g : Gnuplot) :
  same_but_connection g (snd (sendcommand str g)).
Proof. unfold sendcommand. destruct (connection g); repeat split. Qed.

(** A call of [_plot] that returns has either seen an empty first vector and
    done nothing, or passed the check of the dimension and appended one
    series. *)
Lemma _plot_returns (label : string) (style : LineStyle) (d : bool)
    (v : list T) (args : list (list T)) (g g' : Gnuplot) :
  _plot label style d v args g = Ok g' ->
  (v = [] /\ g' = g)
  \/ (v <> [] /\ (series g = [] \/ is_3dplot g = d)
      /\ exists of_ fmtstring,
           _plot_loop (length v) 0 (v :: args) "" "" = Ok (of_, fmtstring)
           /\ g' = with_is_3dplot d
                     (with_series
                        (series g ++ [ {| data_string := of_; line_style := style;
                                          title := label; column_range := fmtstring |} ])
                        g)).
Proof.
  unfold _plot. destruct v as [|x v]; [intros [= <-]; now left|].
  intros H. right. split; [discriminate|].
  destruct (negb (bool_decide (series g = [])) && negb (eqb (is_3dplot g) d)) eqn:Hmode;
    [discriminate|].
  split.
  - apply andb_false_iff in Hmode as [Hm|Hm].
    + left. apply negb_false_iff, bool_decide_eq_true in Hm. exact Hm.
    + right. apply negb_false_iff, eqb_prop in Hm. exact Hm.
  - destruct (_plot_loop (length (x :: v)) 0 ((x :: v) :: args) "" "")
      as [[of_ fmtstring]|f] eqn:Hloop; [|discriminate].
    simpl in H. injection H as <-. now exists of_, fmtstring.
Qed.

Lemma histogram_returns (values : list binary64) (nbins : N) (label : string)
    (style : LineStyle) (g g' : Gnuplot) :
  histogram values nbins label style g = Ok g' ->
  (values = [] /\ g' = g)
  \/ (values <> [] /\ (series g = [] \/ is_3dplot g = false)
      /\ exists s, g' = with_is_3dplot false (with_series (series g ++ [s]) g)).
Proof.
  unfold histogram. destruct (nbins =? 0)%N; [discriminate|].
  destruct values as [|x v]; [intros [= <-]; now left|].
  intros H. right. split; [discriminate|].
  destruct (negb (bool_decide (series g = [])) && is_3dplot g) eqn:Hmode;
    [discriminate|].
  split.
  - apply andb_false_iff in Hmode as [Hm|Hm].
    + left. apply negb_false_iff, bool_decide_eq_true in Hm. exact Hm.
    + now right.
  - destruct (min_element (x :: v)), (max_element (x :: v)); try discriminate.
    destruct (new_bins nbins) as [bins0|]; [|discriminate].
    cbn -[hist_fill hist_print] in H.
    destruct (hist_fill _ _ _ _ _) as [bins|]; [|discriminate]. simpl in H.
    destruct (hist_print _ _ _ _ _ _) as [of_|]; [|discriminate]. simpl in H.
    injection H as <-. eexists. reflexivity.
Qed.

(** The calls that add a series, by the method they end in. *)
Lemma step_adds (c : call T) (g : Gnuplot) (d : bool) :
  added_dimension c = Some d ->
  (exists label style (v : list T) args,
      v <> [] /\ step c g = _plot label style d v args g)
  \/ (exists values nbins label style,
        values <> [] /\ d = false /\ step c g = histogram values nbins label style g).
Proof.
  destruct c; simpl; try discriminate;
    match goal with
    | |- context [call_histogram] => idtac
    | |- match ?v with [] => _ | _ :: _ => _ end = _ -> _ =>
        destruct v eqn:Hv; [discriminate|]; intros [= <-]; left;
        unfold plot_y, plot, plot_xerr, plot_yerr, plot_xyerr, plot_vectors,
          plot3d, plot_vectors3d;
        do 4 eexists; split; [|reflexivity]; discriminate
    | _ => idtac
    end.
  destruct values eqn:Hv; [discriminate|]. intros [= <-]. right.
  do 4 eexists. split; [|split; reflexivity]. discriminate.
Qed.

(** Every call that returns leaves the list of files to delete as it was. *)
Lemma step_files_to_delete (c : call T) (g g' : Gnuplot) :
  step c g = Ok g' -> files_to_delete g' = files_to_delete g.
Proof.
  destruct c as [| | | | | | | | | | scale | | | | | | | | | | | reset_after |]; simpl;
    unfold redirect_to_png, redirect_to_pdf, redirect_to_svg, redirect_to_dumb,
      set_xlabel, set_ylabel, set_logscale, multiplot,
      plot_y, plot, plot_xerr, plot_yerr, plot_xyerr, plot_vectors, plot3d,
      plot_vectors3d;
    try (intros [= <-]; first [ apply sendcommand_frame | reflexivity ]);
    try (intros H; apply _plot_returns in H as [[_ ->]|(_ & _ & ? & ? & _ & ->)];
         reflexivity).
  - intros [= <-]. destruct scale; apply sendcommand_frame.
  - intros [[_ ->]|(_ & _ & ? & ->)]%histogram_returns; reflexivity.
  - intros [= <-]. unfold show. destruct (series g); [reflexivity|].
    unfold sendcommand. destruct (connection g); [|reflexivity].
    destruct reset_after; reflexivity.
Qed.

Lemma run_files_to_delete (cs : list (call T)) (g g' : Gnuplot) :
  run cs g = Ok g' -> files_to_delete g' = files_to_delete g.
Proof.
  revert g. induction cs as [|c cs IH]; intros g; simpl.
  - now intros [= <-].
  - destruct (step c g) as [g1|] eqn:Hstep; [|discriminate]. simpl.
    intros H%IH. rewrite H. now apply step_files_to_delete in Hstep.
Qed.

Lemma Gnuplot_new_fields (executable_name : string) (persist : bool)
    (safe_popen : string -> string -> bool) :
  let g := Gnuplot_new executable_name persist safe_popen in
  series g = [] /\ files_to_delete g = [] /\ is_3dplot g = false
  /\ xrange g = "[]" /\ yrange g = "[]" /\ zrange g = "[]".
Proof.
  unfold Gnuplot_new.
  destruct (safe_popen (popen_command executable_name persist) "w"); repeat split.
Qed.

(** C10. The constructor leaves [files_to_delete] empty, no call changes it,
    so it is empty in every session a program can reach, and the destructor,
    which removes the files listed there, removes none: it closes the
    connection if there is one and sleeps. *)
Theorem files_to_delete_always_empty :
  (forall executable_name persist safe_popen,
      files_to_delete (Gnuplot_new executable_name persist safe_popen) = [])
  /\ (forall (c : call T) (g g' : Gnuplot),
        step c g = Ok g' -> files_to_delete g' = files_to_delete g)
  /\ (forall g : Gnuplot,
        reachable (T := T) g ->
        files_to_delete g = []
        /\ destructor g = (if ok g then [pclose] else []) ++ [sleep 1]
        /\ forall fname, remove fname ∉ destructor g).
Proof.
  split; [intros; apply Gnuplot_new_fields|].
  split; [apply step_files_to_delete|].
  intros g (exe & persist & safe_popen & cs & Hrun).
  assert (Hfiles : files_to_delete g = []).
  { apply run_files_to_delete in Hrun. rewrite Hrun. apply Gnuplot_new_fields. }
  split; [exact Hfiles|]. unfold destructor. rewrite Hfiles. simpl.
  split; [reflexivity|].
  intros fname. destruct (ok g); intros Hin;
    repeat (apply elem_of_cons in Hin as [Hin|Hin]; [discriminate|]);
    now apply elem_of_nil in Hin.
Qed.

End CallFacts.

(** ** The 2D/3D mode *)

Section ModeFacts.

Context {T : Type} {print_T : Print T} {print_Q : Print Q}.
Context {print_binary64 : Print binary64} {heap : Heap}.

(** The only fault of the two printing loops is a read past the end of one
    of the vectors. *)
Lemma _print_ith_elements_fault (vs : list (list T)) (os fmts : string)
    (index : Z) (i : nat) (f : fault) :
  _print_ith_elements os fmts index i vs = Fault f -> f = Undefined read_past_the_end.
Proof.
  revert os fmts index. induction vs as [|v vs IH]; intros os fmts index; simpl.
  - discriminate.
  - destruct (v !! i); [apply IH | now intros [= <-]].
Qed.

Lemma _plot_loop_fault (todo i : nat) (vs : list (list T)) (of_ fmtstring : string)
    (f : fault) :
  _plot_loop todo i vs of_ fmtstring = Fault f -> f = Undefined read_past_the_end.
Proof.
  revert i of_ fmtstring. induction todo as [|todo IH]; intros i of_ fmtstring; simpl.
  - discriminate.
  - destruct (_print_ith_elements of_ fmtstring 1 i vs) as [[? ?]|f'] eqn:Hp; simpl.
    + apply IH.
    + intros [= <-]. now apply _print_ith_elements_fault in Hp.
Qed.

(** Filling and printing the bins never fails by an assertion. *)
Lemma hist_fill_fault (min binwidth : binary64) (nbins : N) (values : list binary64)
    (bins : list N) (f : fault) :
  hist_fill min binwidth nbins values bins = Fault f ->
  forall a, f <> AssertionFailed a.
Proof.
  revert bins. induction values as [|val rest IH]; intros bins; simpl; [discriminate|].
  destruct (hist_index min binwidth nbins val) as [index|f'] eqn:Hi; simpl.
  - destruct (at_increment index bins) as [bins'|f'] eqn:Hat; simpl; [apply IH|].
    intros [= <-]. unfold at_increment in Hat.
    destruct (_ <? _)%N in Hat; [discriminate|]. injection Hat as <-. discriminate.
  - intros [= <-]. unfold hist_index, static_cast_int, decrement in Hi.
    destruct (truncate _) in Hi; simpl in Hi; [|injection Hi as <-; discriminate].
    destruct (_ && _) in Hi; simpl in Hi; [|injection Hi as <-; discriminate].
    destruct (_ <=? _) in Hi; [|discriminate].
    destruct (_ =? _) in Hi; [|discriminate]. injection Hi as <-. discriminate.
Qed.

Lemma hist_print_fault (todo : nat) (i : N) (min binwidth : binary64) (bins : list N)
    (of_ : string) (f : fault) :
  hist_print todo i min binwidth bins of_ = Fault f ->
  f = Undefined read_past_the_end.
Proof.
  revert i of_. induction todo as [|todo IH]; intros i of_; simpl; [discriminate|].
  destruct (bins !! N.to_nat i); [apply IH | now intros [= <-]].
Qed.

(** The two assertions of [histogram] and when they fail. *)
Lemma histogram_assertion (values : list binary64) (nbins : N) (label : string)
    (style : LineStyle) (g : Gnuplot) (a : assertion) :
  histogram values nbins label style g = Fault (AssertionFailed a) ->
  (a = nbins_positive /\ nbins = 0%N)
  \/ (a = not_3dplot /\ series g <> [] /\ is_3dplot g = true).
Proof.
  unfold histogram. destruct (N.eqb_spec nbins 0) as [->|_].
  { intros [= <-]. now left. }
  destruct values as [|x v]; [discriminate|].
  destruct (negb (bool_decide (series g = [])) && is_3dplot g) eqn:Hmode.
  { intros [= <-]. right. apply andb_true_iff in Hmode as [Hs Hm].
    apply negb_true_iff, bool_decide_eq_false in Hs. now repeat split. }
  destruct (min_element (x :: v)) as [min|], (max_element (x :: v)) as [max|];
    try discriminate.
  unfold new_bins. destruct (allocate nbins); try discriminate.
  cbn -[hist_fill hist_print].
  destruct (hist_fill min _ nbins (x :: v) _) as [bins|f] eqn:Hfill; simpl.
  - destruct (hist_print _ _ _ _ _ _) as [of_|f] eqn:Hprint; simpl; [discriminate|].
    intros [= ->]. now apply hist_print_fault in Hprint.
  - intros [= ->]. now apply hist_fill_fault with (a := a) in Hfill.
Qed.

(** The first series of an empty pending list sets the mode. *)
Lemma step_first_series (c : call T) (g g' : Gnuplot) (d : bool) :
  series g = [] -> added_dimension c = Some d -> step c g = Ok g' ->
  series g' <> [] /\ is_3dplot g' = d.
Proof.
  intros Hs Hd Hstep.
  destruct (step_adds c g d Hd)
    as [(label & style & v & args & Hv & Heq)|(values & nbins & label & style & Hv & -> & Heq)];
    rewrite Heq in Hstep.
  - apply _plot_returns in Hstep as [[? _]|(_ & _ & of_ & fmt & _ & ->)];
      [contradiction|].
    simpl. split; [|reflexivity]. rewrite Hs. discriminate.
  - apply histogram_returns in Hstep as [[? _]|(_ & _ & s & ->)]; [contradiction|].
    simpl. split; [|reflexivity]. rewrite Hs. discriminate.
Qed.

(** As long as [reset] is not run, the pending list stays non-empty and the
    mode stays what it is. *)
Lemma step_keeps_mode (c : call T) (g g' : Gnuplot) :
  series g <> [] -> runs_reset c g = false -> step c g = Ok g' ->
  series g' <> [] /\ is_3dplot g' = is_3dplot g.
Proof.
  intros Hs.
  assert (Hsend : forall str, series (snd (sendcommand str g)) <> []
                              /\ is_3dplot (snd (sendcommand str g)) = is_3dplot g).
  { intros str. destruct (sendcommand_frame str g) as (-> & _ & _ & _ & _ & ->).
    now split. }
  assert (Happ : forall s : GnuplotSeries, series g ++ [s] <> []).
  { intros s H. now apply app_eq_nil in H as [_ [=]]. }
  destruct c as [| | | | | | | | | | scale | | | | | | | | | | | reset_after |]; simpl;
    unfold redirect_to_png, redirect_to_pdf, redirect_to_svg, redirect_to_dumb,
      set_xlabel, set_ylabel, set_logscale, multiplot,
      plot_y, plot, plot_xerr, plot_yerr, plot_xyerr, plot_vectors, plot3d,
      plot_vectors3d;
    intros Hreset;
    try (intros [= <-]; first [ apply Hsend | now split ]);
    try (intros H;
         apply _plot_returns in H as [[_ ->]|(_ & [?| <-] & ? & ? & _ & ->)];
         [now split | contradiction | simpl; split; [apply Happ | reflexivity]]).
  - intros [= <-]. destruct scale; apply Hsend.
  - intros H. apply histogram_returns in H as [[_ ->]|(_ & [?|Hm] & ? & ->)];
      [now split | contradiction | simpl; split; [apply Happ | now rewrite Hm]].
  - intros [= <-]. unfold show. destruct (series g) as [|s ss] eqn:Hss; [contradiction|].
    rewrite bool_decide_eq_false_2 in Hreset by discriminate. simpl in Hreset.
    unfold ok in Hreset. unfold sendcommand.
    destruct (connection g); simpl in *; [|now rewrite Hss].
    subst reset_after. simpl. now rewrite Hss.
Qed.

Lemma run_keeps_mode (cs : list (call T)) (g g' : Gnuplot) :
  series g <> [] -> never_resets cs g = true -> run cs g = Ok g' ->
  series g' <> [] /\ is_3dplot g' = is_3dplot g.
Proof.
  revert g. induction cs as [|c cs IH]; intros g Hs Hnever; simpl.
  - intros [= <-]. now split.
  - simpl in Hnever. apply andb_true_iff in Hnever as [Hc Hcs].
    apply negb_true_iff in Hc.
    destruct (step c g) as [g1|] eqn:Hstep; [|discriminate]. simpl.
    destruct (step_keeps_mode c g g1 Hs Hc Hstep) as [Hs1 Hm1].
    intros Hrun. destruct (IH g1 Hs1 Hcs Hrun) as [Hs' Hm']. split; [exact Hs'|].
    now rewrite Hm', Hm1.
Qed.

(** A series of the other dimension runs into an assertion. *)
Lemma step_other_dimension (c : call T) (g : Gnuplot) (d : bool) :
  series g <> [] -> added_dimension c = Some d -> d <> is_3dplot g ->
  step c g = Fault (AssertionFailed same_dimensionality)
  \/ step c g = Fault (AssertionFailed not_3dplot)
  \/ step c g = Fault (AssertionFailed nbins_positive).
Proof.
  intros Hs Hd Hne.
  destruct (step_adds c g d Hd)
    as [(label & style & v & args & Hv & ->)|(values & nbins & label & style & Hv & -> & ->)].
  - left. unfold _plot. destruct v; [contradiction|].
    rewrite bool_decide_eq_false_2 by exact Hs.
    destruct (is_3dplot g), d; simpl; try reflexivity; contradiction.
  - right. unfold histogram. destruct (nbins =? 0)%N; [now right|]. left.
    destruct values; [contradiction|].
    rewrite bool_decide_eq_false_2 by exact Hs.
    destruct (is_3dplot g); [reflexivity|contradiction].
Qed.

(** With an empty pending list neither check of the mode can fail. *)
Lemma step_no_mode_assertion (c : call T) (g : Gnuplot) :
  series g = [] ->
  step c g <> Fault (AssertionFailed same_dimensionality)
  /\ step c g <> Fault (AssertionFailed not_3dplot).
Proof.
  intros Hs.
  assert (Hplot : forall label style d (v : list T) args a,
             a <> nbins_positive ->
             _plot label style d v args g <> Fault (AssertionFailed a)).
  { intros label style d v args a _. unfold _plot. destruct v as [|x v]; [discriminate|].
    rewrite bool_decide_eq_true_2 by exact Hs. simpl negb. simpl andb. cbv iota.
    destruct (_plot_loop (length (x :: v)) 0 ((x :: v) :: args) "" "")
      as [[? ?]|f] eqn:Hloop; [discriminate|].
    apply _plot_loop_fault in Hloop as ->. discriminate. }
  assert (Hhist : forall values nbins label style a,
             a <> nbins_positive ->
             histogram values nbins label style g <> Fault (AssertionFailed a)).
  { intros values nbins label style a Ha H.
    apply histogram_assertion in H as [[-> _]|(_ & Hne & _)]; [|rewrite Hs in Hne];
      contradiction. }
  destruct c; simpl;
    unfold plot_y, plot, plot_xerr, plot_yerr, plot_xyerr, plot_vectors, plot3d,
      plot_vectors3d;
    split; first [ discriminate | apply Hplot; discriminate | apply Hhist; discriminate ].
Qed.

(** C4. A session just built or reset has no pending series.  The first call
    that adds a series to such a session sets the 3D flag to the dimension of
    that series.  From then on, through any calls that return and do not run
    [reset], the pending list stays non-empty and the flag stays; a call that
    would add a series of the other dimension from a non-empty vector stops at
    an assertion (the check of the mode, or the check of the bin count, which
    [histogram] makes first).  With an empty pending list no check of the mode
    fails. *)
Theorem mode_fixed_by_first_series
    (g0 g1 g2 : Gnuplot) (first later : call T) (cs : list (call T)) (d : bool) :
  series g0 = [] ->
  added_dimension first = Some d ->
  step first g0 = Ok g1 ->
  never_resets cs g1 = true ->
  run cs g1 = Ok g2 ->
  (forall executable_name persist safe_popen,
      series (Gnuplot_new executable_name persist safe_popen) = [])
  /\ (forall g, series (reset g) = [])
  /\ series g1 <> [] /\ is_3dplot g1 = d
  /\ series g2 <> [] /\ is_3dplot g2 = d
  /\ (forall d', added_dimension later = Some d' -> d' <> d ->
       step later g2 = Fault (AssertionFailed same_dimensionality)
       \/ step later g2 = Fault (AssertionFailed not_3dplot)
       \/ step later g2 = Fault (AssertionFailed nbins_positive))
  /\ (forall (c : call T) (g : Gnuplot),
       series g = [] ->
       step c g <> Fault (AssertionFailed same_dimensionality)
       /\ step c g <> Fault (AssertionFailed not_3dplot)).
Proof.
  intros Hs0 Hd Hfirst Hnever Hrun.
  destruct (step_first_series first g0 g1 d Hs0 Hd Hfirst) as [Hs1 Hm1].
  destruct (run_keeps_mode cs g1 g2 Hs1 Hnever Hrun) as [Hs2 Hm2].
  rewrite Hm1 in Hm2.
  split; [intros; apply Gnuplot_new_fields|].
  split; [reflexivity|].
  repeat (split; [assumption|]).
  split; [|apply step_no_mode_assertion].
  intros d' Hd' Hne. apply (step_other_dimension later g2 d' Hs2 Hd').
  now rewrite Hm2.
Qed.

End ModeFacts.

(** ** The series built by [_plot] *)

Section PlotFacts.

Context {T : Type} {print_T : Print T} {print_Q : Print Q}.
Context {print_binary64 : Print binary64} {heap : Heap}.

Lemma row_at_cons (v : list T) (vs : list (list T)) (i : nat) (x : T) :
  v !! i = Some x -> row_at i (v :: vs) = x :: row_at i vs.
Proof. intros H. unfold row_at. simpl. now rewrite H. Qed.

Lemma row_at_length (i : nat) (vs : list (list T)) :
  Forall (fun v => (i < length v)%nat) vs -> length (row_at i vs) = length vs.
Proof.
  induction 1 as [|v vs Hv _ IH]; [reflexivity|].
  apply lookup_lt_is_Some_2 in Hv as [x Hx].
  rewrite (row_at_cons _ _ _ _ Hx). simpl. now rewrite IH.
Qed.

Lemma row_at_Forall (P : T -> Prop) (i : nat) (vs : list (list T)) :
  Forall (Forall P) vs -> Forall P (row_at i vs).
Proof.
  induction 1 as [|v vs Hv _ IH]; [constructor|].
  unfold row_at. simpl. destruct (v !! i) as [x|] eqn:Hx; [|exact IH].
  constructor; [|exact IH].
  rewrite Forall_forall in Hv. apply Hv. eapply list_elem_of_lookup_2. exact Hx.
Qed.

(** One call of [_print_ith_elements] on vectors that all have an element
    number [i]: the elements go to the data, each followed by a blank, and
    for [i = 0] the column numbers go to the format. *)
Lemma _print_ith_elements_ok (vs : list (list T)) (os fmts : string)
    (index : Z) (i : nat) :
  Forall (fun v => (i < length v)%nat) vs ->
  _print_ith_elements os fmts index i vs
  = Ok (os +:+ row_text (row_at i vs),
        if (i =? 0)%nat then fmts +:+ column_numbers index (length vs) else fmts).
Proof.
  intros H. revert os fmts index.
  induction H as [|v vs Hv _ IH]; intros os fmts index.
  - simpl. rewrite !app_nil_r. now destruct (i =? 0)%nat.
  - apply lookup_lt_is_Some_2 in Hv as [x Hx].
    rewrite (row_at_cons _ _ _ _ Hx). cbn [_print_ith_elements length].
    rewrite Hx, IH. f_equal. f_equal.
    + unfold row_text. simpl. now rewrite !app_assoc.
    + destruct (i =? 0)%nat; [|reflexivity].
      cbn [column_numbers]. destruct (1 <? index); now rewrite !app_assoc, ?app_nil_l.
Qed.

Lemma _print_ith_elements_short (vs : list (list T)) (os fmts : string)
    (index : Z) (i : nat) :
  Exists (fun v => (length v <= i)%nat) vs ->
  _print_ith_elements os fmts index i vs = Fault (Undefined read_past_the_end).
Proof.
  intros H. revert os fmts index.
  induction vs as [|v vs IH]; intros os fmts index.
  - inversion H.
  - simpl. destruct (v !! i) as [x|] eqn:Hx; [|reflexivity].
    apply IH. inversion H as [? ? Hv|]; [|assumption].
    apply lookup_ge_None_2 in Hv. congruence.
Qed.

(** The loop of [_plot] over rows that all the vectors have. *)
Lemma _plot_loop_ok (todo i : nat) (vs : list (list T)) (of_ fmtstring : string) :
  Forall (fun v => (i + todo <= length v)%nat) vs ->
  _plot_loop todo i vs of_ fmtstring
  = Ok (of_ +:+ Text.concat (map (fun j => row_text (row_at j vs) +:+ nl) (seq i todo)),
        if (i =? 0)%nat && negb (todo =? 0)%nat
        then fmtstring +:+ column_numbers 1 (length vs) else fmtstring).
Proof.
  revert i of_ fmtstring. induction todo as [|todo IH]; intros i of_ fmtstring H.
  - simpl. rewrite app_nil_r, andb_false_r. reflexivity.
  - simpl _plot_loop. rewrite _print_ith_elements_ok
      by (eapply Forall_impl; [exact H|]; simpl; intros; lia).
    simpl mbind. cbv beta iota. unfold mbind, result_bind.
    rewrite IH by (eapply Forall_impl; [exact H|]; simpl; intros; lia).
    simpl. rewrite !app_assoc, andb_true_r. reflexivity.
Qed.

Lemma _plot_loop_short (todo i : nat) (vs : list (list T)) (of_ fmtstring : string) :
  Forall (fun v => (i <= length v)%nat) vs ->
  Exists (fun v => (length v < i + todo)%nat) vs ->
  _plot_loop todo i vs of_ fmtstring = Fault (Undefined read_past_the_end).
Proof.
  revert i of_ fmtstring. induction todo as [|todo IH]; intros i of_ fmtstring Hall Hex.
  - exfalso. apply Exists_exists in Hex as (v & Hin & Hv).
    rewrite Forall_forall in Hall. specialize (Hall v Hin). lia.
  - simpl. destruct (decide (Forall (fun v => (i < length v)%nat) vs)) as [Hlong|Hshort].
    + rewrite (_print_ith_elements_ok _ _ _ _ _ Hlong). simpl.
      apply IH; [exact Hlong|].
      eapply Exists_impl; [exact Hex|]. simpl. intros; lia.
    + apply not_Forall_Exists in Hshort; [|intros v; apply _].
      rewrite _print_ith_elements_short; [reflexivity|].
      eapply Exists_impl; [exact Hshort|]. simpl. intros; lia.
Qed.

Lemma _plot_appends (label : string) (style : LineStyle) (d : bool)
    (v : list T) (args : list (list T)) (g : Gnuplot) :
  v <> [] -> series g = [] \/ is_3dplot g = d ->
  Forall (fun w => (length v <= length w)%nat) args ->
  _plot label style d v args g
  = Ok (with_is_3dplot d
          (with_series (series g ++ [plotted_series label style v args]) g)).
Proof.
  intros Hv Hmode Hargs. unfold _plot. destruct v as [|x v]; [contradiction|].
  assert (Hcheck : negb (bool_decide (series g = []))
                   && negb (eqb (is_3dplot g) d) = false).
  { destruct Hmode as [Hs| <-].
    - now rewrite bool_decide_eq_true_2.
    - rewrite eqb_reflx. apply andb_false_r. }
  rewrite Hcheck, _plot_loop_ok.
  - reflexivity.
  - constructor; [simpl; lia|]. eapply Forall_impl; [exact Hargs|]. simpl. intros; lia.
Qed.

Lemma _plot_reads_past_the_end (label : string) (style : LineStyle) (d : bool)
    (v : list T) (args : list (list T)) (g : Gnuplot) :
  v <> [] -> series g = [] \/ is_3dplot g = d ->
  Exists (fun w => (length w < length v)%nat) args ->
  _plot label style d v args g = Fault (Undefined read_past_the_end).
Proof.
  intros Hv Hmode Hargs. unfold _plot. destruct v as [|x v]; [contradiction|].
  assert (Hcheck : negb (bool_decide (series g = []))
                   && negb (eqb (is_3dplot g) d) = false).
  { destruct Hmode as [Hs| <-].
    - now rewrite bool_decide_eq_true_2.
    - rewrite eqb_reflx. apply andb_false_r. }
  rewrite Hcheck, _plot_loop_short; [reflexivity| |].
  - apply Forall_forall. intros; lia.
  - apply Exists_cons_tl. exact Hargs.
Qed.

(** *** The rows as gnuplot reads them *)

Lemma row_text_cons (x : T) (xs : list T) :
  row_text (x :: xs) = print x +:+ String space (row_text xs).
Proof. unfold row_text. simpl. now rewrite app_assoc. Qed.

Lemma row_text_fields (xs : list T) :
  Forall (fun x => token (print x)) xs -> fields (row_text xs) = map print xs.
Proof.
  induction 1 as [|x xs (Hne & Hsp & _) _ IH]; [reflexivity|].
  rewrite row_text_cons, fields_app by assumption. simpl. now rewrite IH.
Qed.

Lemma row_text_lacks_newline (xs : list T) :
  Forall (fun x => token (print x)) xs -> lacks newline (row_text xs).
Proof.
  induction 1 as [|x xs (_ & _ & Hnl) _ IH]; [reflexivity|].
  rewrite row_text_cons. apply lacks_app. split; [exact Hnl|].
  apply lacks_cons. split; [discriminate|exact IH].
Qed.

Lemma row_text_nonempty (xs : list T) :
  xs <> [] -> nonempty (row_text xs) = true.
Proof.
  destruct xs as [|x xs]; [contradiction|]. intros _.
  rewrite row_text_cons. now destruct (print x).
Qed.

(** The text of [n] rows is read back as [n] lines, one per row. *)
Lemma rows_text_lines (n : nat) (vs : list (list T)) (rest : string) :
  Forall (Forall (fun x => token (print x))) vs ->
  lines (rows_text n vs +:+ rest)
  = map (fun i => row_text (row_at i vs)) (seq 0 n) ++ lines rest.
Proof.
  intros Htok. unfold rows_text.
  rewrite <- (map_map (fun i => row_text (row_at i vs)) (fun r => r +:+ nl)).
  apply lines_app. apply Forall_forall. intros r Hr.
  apply list_elem_of_In, in_map_iff in Hr as (i & <- & _).
  apply row_text_lacks_newline, row_at_Forall, Htok.
Qed.

Lemma data_rows_app (l1 l2 : list string) :
  data_rows (l1 ++ l2) = data_rows l1 ++ data_rows l2.
Proof. apply filter_app. Qed.

Lemma data_rows_nonempty (l : list string) :
  Forall (fun r => nonempty r = true) l -> data_rows l = l.
Proof.
  induction 1 as [|r l Hr _ IH]; [reflexivity|].
  unfold data_rows in *. rewrite filter_cons, IH.
  destruct (decide (nonempty r = true)); [reflexivity|contradiction].
Qed.

Lemma rows_text_data_rows (n : nat) (vs : list (list T)) :
  vs <> [] ->
  Forall (fun v => (n <= length v)%nat) vs ->
  Forall (Forall (fun x => token (print x))) vs ->
  data_rows (lines (rows_text n vs)) = map row_text (rows n vs).
Proof.
  intros Hvs Hlen Htok.
  rewrite <- (app_nil_r (rows_text n vs)), rows_text_lines by exact Htok.
  rewrite data_rows_app. change (data_rows (lines "")) with (@nil string).
  rewrite List.app_nil_r. unfold rows. rewrite map_map.
  apply data_rows_nonempty, Forall_forall. intros r Hr.
  apply list_elem_of_In, in_map_iff in Hr as (i & <- & Hi).
  apply in_seq in Hi. apply row_text_nonempty.
  intros Hnil. apply (f_equal length) in Hnil. rewrite row_at_length in Hnil.
  - destruct vs; [contradiction|discriminate].
  - eapply Forall_impl; [exact Hlen|]. simpl. intros; lia.
Qed.

Lemma rows_fields (n : nat) (vs : list (list T)) :
  Forall (Forall (fun x => token (print x))) vs ->
  map fields (map row_text (rows n vs)) = map (map print) (rows n vs).
Proof.
  intros Htok. rewrite map_map. apply map_ext_in. intros r Hr.
  apply row_text_fields. unfold rows in Hr.
  apply in_map_iff in Hr as (i & <- & _). apply row_at_Forall, Htok.
Qed.

Lemma rows_length (n : nat) (vs : list (list T)) :
  Forall (fun v => (n <= length v)%nat) vs ->
  length (rows n vs) = n /\ Forall (fun r => length r = length vs) (rows n vs).
Proof.
  intros Hlen. unfold rows. split; [now rewrite length_map, length_seq|].
  apply Forall_forall. intros r Hr.
  apply list_elem_of_In, in_map_iff in Hr as (i & <- & Hi). apply in_seq in Hi.
  apply row_at_length. eapply Forall_impl; [exact Hlen|]. simpl. intros; lia.
Qed.

Lemma rows_single (y : list T) : rows (length y) [y] = map (fun x => [x]) y.
Proof.
  unfold rows. induction y as [|x y IH]; [reflexivity|].
  simpl. f_equal. rewrite <- seq_shift, map_map. exact IH.
Qed.

(** *** [plot] with one vector *)


(** *** Vectors of different lengths *)

Lemma plotted_vectors_step (c : call T) (v : list T) (args : list (list T))
    (g : Gnuplot) :
  plotted_vectors c = Some (v, args) ->
  exists label style d,
    step c g = _plot label style d v args g
    /\ (v <> [] -> added_dimension c = Some d).
Proof.
  destruct c; simpl; try discriminate; intros [= <- <-];
    unfold plot_y, plot, plot_xerr, plot_yerr, plot_xyerr, plot_vectors, plot3d,
      plot_vectors3d;
    do 3 eexists; (split; [reflexivity|]);
    match goal with |- ?v <> [] -> _ => destruct v; [contradiction|reflexivity] end.
Qed.

(** C3, as the code has it.  None of the calls that end in [_plot] compares
    the lengths of its vectors.  When no other vector is shorter than the
    first, non-empty, one, the call appends a series made of the first
    [v.size()] elements of every vector, whether the lengths agree or not.
    When some vector is shorter, the call reads it past its end, which C++
    leaves undefined; no series is appended and no error is reported. *)
Theorem lengths_are_not_compared (c : call T) (v : list T) (args : list (list T))
    (d : bool) (g : Gnuplot) :
  plotted_vectors c = Some (v, args) ->
  v <> [] ->
  added_dimension c = Some d ->
  series g = [] \/ is_3dplot g = d ->
  (Forall (fun w => (length v <= length w)%nat) args ->
   exists label style,
     step c g
     = Ok (with_is_3dplot d
             (with_series (series g ++ [plotted_series label style v args]) g)))
  /\ (Exists (fun w => (length w < length v)%nat) args ->
      step c g = Fault (Undefined read_past_the_end)).
Proof.
  intros Hc Hv Hd Hmode.
  destruct (plotted_vectors_step c v args g Hc) as (label & style & d' & -> & Hd').
  rewrite (Hd' Hv) in Hd. injection Hd as ->. split.
  - intros Hlen. exists label, style. now apply _plot_appends.
  - intros Hshort. now apply _plot_reads_past_the_end.
Qed.

End PlotFacts.

(** ** The text sent by [show] *)

Section ShowFacts.

Context {T : Type} {print_T : Print T} {print_Q : Print Q}.
Context {print_binary64 : Print binary64} {heap : Heap}.

Lemma string_of_uint_lacks (c : ascii) (d : Decimal.uint) :
  lacks c "0123456789" -> lacks c (NilEmpty.string_of_uint d).
Proof.
  intros H. repeat (apply lacks_cons in H as [? H]).
  induction d; simpl; [reflexivity|..]; (apply lacks_cons; split; [assumption|exact IHd]).
Qed.

Lemma print_int_lacks (c : ascii) (z : Z) :
  lacks c "-0123456789" -> lacks c (print z).
Proof.
  intros [Hminus H]%lacks_cons. pose proof (string_of_uint_lacks c) as Hu.
  assert (H0 : lacks c "0") by (apply lacks_cons in H as [? _]; now apply lacks_cons).
  unfold print, print_int, NilZero.string_of_int, NilZero.string_of_uint.
  destruct (Z.to_int z) as [d|d]; [|apply lacks_cons; split; [assumption|]];
    destruct d; auto.
Qed.

Lemma column_numbers_lacks (c : ascii) (index : Z) (k : nat) :
  lacks c ":-0123456789" -> lacks c (column_numbers index k).
Proof.
  intros [Hcolon H]%lacks_cons. revert index.
  induction k as [|k IH]; intros index; [reflexivity|].
  simpl. rewrite !lacks_app. repeat split.
  - destruct (1 <? index); [apply lacks_cons; now split|reflexivity].
  - now apply print_int_lacks.
  - apply IH.
Qed.

Lemma escape_quotes_lacks (c : ascii) (s : string) :
  c <> quote -> lacks c s -> lacks c (escape_quotes s).
Proof.
  intros Hc. rewrite escape_quotes_eq.
  induction s as [|a s IH]; [reflexivity|].
  intros [Ha Hs]%lacks_cons. simpl.
  destruct (Ascii.eqb_spec a quote) as [->|_]; repeat (apply lacks_cons; split; auto).
Qed.

Lemma style_to_str_lacks_newline (style : LineStyle) :
  lacks newline (style_to_str style).
Proof. now destruct style. Qed.

(** While a block is open, lines other than [EOD] are added to it. *)
Lemma datablocks_from_rows (rs rest block : list string) :
  Forall (fun r => r <> "EOD") rs ->
  datablocks_from (rs ++ rest) (Some block)
  = datablocks_from rest (Some (rev rs ++ block)).
Proof.
  intros H. revert block. induction H as [|r rs Hr _ IH]; intros block; [reflexivity|].
  simpl. destruct (String.eqb_spec r "EOD") as [?|_]; [contradiction|].
  rewrite IH. now rewrite <- List.app_assoc.
Qed.

(** A line whose first word does not start with [$] opens no block. *)
Lemma command_is_no_header (word rest : string) :
  word <> "" -> lacks space word -> String.prefix "$" word = false ->
  is_block_header (word +:+ String space rest) = false.
Proof.
  intros Hne Hsp Hp. unfold is_block_header. rewrite fields_app by assumption.
  destruct (fields rest) as [|a [|b [|]]]; try reflexivity. now rewrite Hp.
Qed.

Lemma row_text_not_EOD (xs : list T) : xs <> [] -> row_text xs <> "EOD".
Proof.
  destruct xs as [|x xs]; [contradiction|]. intros _ H.
  assert (Hl : lacks space (row_text (x :: xs))) by now rewrite H.
  rewrite row_text_cons in Hl. apply lacks_app in Hl as [_ Hl].
  apply lacks_cons in Hl as [Hl _]. contradiction.
Qed.

Lemma plot_command_lacks_newline (g : Gnuplot) (s : GnuplotSeries) :
  lacks newline (xrange g) -> lacks newline (yrange g) -> lacks newline (zrange g) ->
  lacks newline (column_range s) -> lacks newline (title s) ->
  lacks newline (plot_command g s).
Proof.
  intros Hx Hy Hz Hc Ht. unfold plot_command.
  pose proof (style_to_str_lacks_newline (line_style s)).
  pose proof (escape_quotes_lacks newline (title s) ltac:(discriminate) Ht).
  destruct (is_3dplot g); rewrite !lacks_app; repeat split; auto.
Qed.

Lemma show_text_one (g : Gnuplot) (s : GnuplotSeries) :
  series g = [s] ->
  show_text g
  = ("set style fill solid 0.5" +:+ nl
     +:+ ("$Datablock" +:+ print 0%N +:+ " << EOD") +:+ nl
     +:+ data_string s +:+ nl +:+ "EOD" +:+ nl)
    +:+ plot_command g s.
Proof.
  intros H. unfold show_text, plot_command. rewrite H. simpl.
  destruct (is_3dplot g); now rewrite !app_assoc.
Qed.

Lemma row_text_lacks (c : ascii) (xs : list T) :
  c <> space -> Forall (fun x => lacks c (print x)) xs -> lacks c (row_text xs).
Proof.
  intros Hc. induction 1 as [|x xs Hx _ IH]; [reflexivity|].
  rewrite row_text_cons. apply lacks_app. split; [exact Hx|].
  apply lacks_cons. split; [congruence|exact IH].
Qed.

Lemma rows_text_lacks (c : ascii) (n : nat) (vs : list (list T)) :
  c <> space -> c <> newline ->
  Forall (Forall (fun x => lacks c (print x))) vs -> lacks c (rows_text n vs).
Proof.
  intros Hsp Hnl Hvs. unfold rows_text. induction (seq 0 n) as [|i l IH]; [reflexivity|].
  cbn [map Text.concat]. rewrite !lacks_app. split; [split|exact IH].
  - apply row_text_lacks; [exact Hsp|]. now apply row_at_Forall.
  - apply lacks_cons. split; [congruence|reflexivity].
Qed.

(** The plot command, cut at a NUL or not, is no header of a block. *)
Lemma sent_plot_command_is_no_header (g : Gnuplot) (s : GnuplotSeries) :
  is_block_header (c_str (plot_command g s)) = false.
Proof.
  unfold plot_command. destruct (is_3dplot g); rewrite !app_assoc.
  - rewrite (c_str_app "splot ") by reflexivity.
    apply (command_is_no_header "splot"); [discriminate|reflexivity|reflexivity].
  - rewrite (c_str_app "plot ") by reflexivity.
    apply (command_is_no_header "plot"); [discriminate|reflexivity|reflexivity].
Qed.

(** The lines of a text made of the fill style line, one block with the rows
    [rs], and a one-line command. *)
Lemma one_block_lines (rs : list string) (cmd : string) :
  Forall (lacks newline) rs -> lacks newline cmd ->
  lines (("set style fill solid 0.5" +:+ nl
          +:+ "$Datablock0 << EOD" +:+ nl
          +:+ Text.concat (map (fun r => r +:+ nl) rs) +:+ nl +:+ "EOD" +:+ nl)
         +:+ cmd +:+ nl)
  = ["set style fill solid 0.5"; "$Datablock0 << EOD"]
    ++ rs ++ [""; "EOD"; cmd; ""].
Proof.
  intros Hrs Hcmd. rewrite !app_assoc.
  rewrite lines_one by reflexivity.
  rewrite lines_one by reflexivity.
  rewrite lines_app by exact Hrs.
  change (nl +:+ "EOD" +:+ nl +:+ cmd +:+ nl)
    with ("" +:+ nl +:+ "EOD" +:+ nl +:+ cmd +:+ nl +:+ "").
  rewrite lines_one by reflexivity. rewrite lines_one by reflexivity.
  rewrite lines_one by exact Hcmd. reflexivity.
Qed.


End ShowFacts.

(** ** [histogram] *)

Section MachineNumbers.

Lemma int_of_size_t_small (n : N) :
  Z.of_N n <= INT_MAX -> int_of_size_t n = Z.of_N n.
Proof.
  unfold INT_MAX, int_of_size_t. intros H.
  rewrite Z.mod_small by lia. lia.
Qed.

Lemma size_t_of_int_small (z : Z) :
  0 <= z <= INT_MAX -> size_t_of_int z = Z.to_N z.
Proof.
  unfold INT_MAX, size_t_of_int. intros H. now rewrite Z.mod_small by lia.
Qed.

(** A negative [int] becomes a [size_t] of at least [2^63]. *)
Lemma size_t_of_int_negative (z : Z) :
  INT_MIN <= z < 0 -> (2 ^ 63 <= size_t_of_int z)%N.
Proof.
  unfold INT_MIN, size_t_of_int. intros H.
  replace (z mod 2 ^ 64) with (z + 2 ^ 64).
  - apply N2Z.inj_le. rewrite Z2N.id by lia. change (Z.of_N (2 ^ 63)) with (2 ^ 63). lia.
  - apply Z.mod_unique with (q := -1); lia.
Qed.

End MachineNumbers.

Section Filling.

Context {print_binary64 : Print binary64}.
Variables (min binwidth : binary64) (nbins : N).

Local Abbreviation count := (count_in_bin min binwidth nbins).
Local Abbreviation counted :=
  (fun val : binary64 => exists i, bin_of min binwidth nbins val = Some i).

(** A value is counted in bin [i] when its index is computed and, read as a
    [size_t], is [i], one of the [nbins] bins. *)
Lemma bin_of_Some (val : binary64) (i : N) :
  bin_of min binwidth nbins val = Some i
  <-> exists index,
        hist_index min binwidth nbins val = Ok index
        /\ size_t_of_int index = i /\ (i < nbins)%N.
Proof.
  unfold bin_of. destruct (hist_index min binwidth nbins val) as [index|f].
  - destruct (N.ltb_spec (size_t_of_int index) nbins) as [Hlt|Hge]; split.
    + intros [= <-]. now exists index.
    + intros (k & [= <-] & <- & _). reflexivity.
    + discriminate.
    + intros (k & [= <-] & <- & Hlt). lia.
  - split; [discriminate|]. now intros (k & [=] & _).
Qed.

Lemma sum_N_alter_succ (bins : list N) (j : nat) :
  (j < length bins)%nat -> sum_N (alter N.succ j bins) = N.succ (sum_N bins).
Proof.
  unfold sum_N.
  revert j. induction bins as [|b bins IH]; intros j Hj; simpl in *; [lia|].
  destruct j as [|j]; simpl; [lia|].
  change (list_alter N.succ j bins) with (alter N.succ j bins).
  rewrite IH by lia. lia.
Qed.

Lemma count_cons (val : binary64) (rest : list binary64) (i : N) :
  count (val :: rest) i
  = ((if decide (bin_of min binwidth nbins val = Some i) then 1 else 0)
     + count rest i)%N.
Proof.
  unfold count_in_bin. rewrite filter_cons.
  destruct (decide (bin_of min binwidth nbins val = Some i)); simpl; lia.
Qed.

(** Filling the bins adds to each bin the number of values counted in it,
    and to the sum of the bins the number of values. *)
Lemma hist_fill_counts (values : list binary64) (bins : list N) :
  Forall counted values ->
  length bins = N.to_nat nbins ->
  exists bins',
    hist_fill min binwidth nbins values bins = Ok bins'
    /\ length bins' = length bins
    /\ sum_N bins' = (sum_N bins + N.of_nat (length values))%N
    /\ forall (i : nat) (b : N),
         bins !! i = Some b -> bins' !! i = Some (b + count values (N.of_nat i))%N.
Proof.
  intros Hall. revert bins. induction Hall as [|val rest [k Hk] _ IH]; intros bins Hlen.
  - exists bins. repeat split; simpl; [lia|].
    intros i b Hb. rewrite Hb. f_equal. unfold count_in_bin. simpl. lia.
  - pose proof Hk as Hk'. apply bin_of_Some in Hk' as (index & Hindex & Hpos & Hlt).
    destruct (IH (alter N.succ (N.to_nat k) bins)) as (bins' & Hfill & Hl & Hsum & Hget).
    { now rewrite length_alter. }
    exists bins'. cbn [hist_fill]. rewrite Hindex. unfold mbind, result_bind.
    unfold at_increment. rewrite Hpos.
    destruct (N.ltb_spec k (N.of_nat (length bins))) as [_|?]; [|lia].
    rewrite Hfill.
    split; [reflexivity|]. split; [now rewrite Hl, length_alter|]. split.
    + rewrite Hsum, sum_N_alter_succ by lia. simpl length. lia.
    + intros i b Hb. rewrite count_cons, Hk.
      destruct (decide (Some k = Some (N.of_nat i))) as [[= ->]|Hne].
      * rewrite Nat2N.id in Hget.
        rewrite (Hget i (N.succ b)); [f_equal; lia|].
        rewrite list_lookup_alter_eq, Hb. reflexivity.
      * rewrite (Hget i b); [f_equal; lia|].
        rewrite list_lookup_alter_ne; [exact Hb|]. intros <-. apply Hne.
        now rewrite N2Nat.id.
Qed.

(** The loop goes through only when every value is counted in a bin. *)
Lemma hist_fill_returns (values : list binary64) (bins bins' : list N) :
  hist_fill min binwidth nbins values bins = Ok bins' ->
  length bins = N.to_nat nbins ->
  Forall counted values.
Proof.
  revert bins. induction values as [|val rest IH]; intros bins H Hlen; [constructor|].
  cbn [hist_fill] in H.
  destruct (hist_index min binwidth nbins val) as [index|] eqn:Hindex; [|discriminate].
  unfold mbind at 1, result_bind at 1 in H. unfold at_increment in H.
  destruct (N.ltb_spec (size_t_of_int index) (N.of_nat (length bins))) as [Hlt|?];
    [|discriminate].
  unfold mbind, result_bind in H. constructor.
  - exists (size_t_of_int index). apply bin_of_Some. exists index.
    split; [exact Hindex|]. split; [reflexivity|]. lia.
  - apply (IH _ H). now rewrite length_alter.
Qed.

(** From empty bins: bin [i] ends with the number of values of bin [i]. *)
Lemma hist_fill_from_zero (values : list binary64) :
  Forall counted values ->
  hist_fill min binwidth nbins values (replicate (N.to_nat nbins) 0%N)
  = Ok (map (count values) (bin_numbers nbins))
  /\ sum_N (map (count values) (bin_numbers nbins)) = N.of_nat (length values).
Proof.
  intros Hall.
  destruct (hist_fill_counts values (replicate (N.to_nat nbins) 0%N) Hall)
    as (bins' & Hfill & Hl & Hsum & Hget).
  { now rewrite length_replicate. }
  assert (Heq : bins' = map (count values) (bin_numbers nbins)).
  { apply list_eq. intros i. unfold bin_numbers.
    rewrite length_replicate in Hl.
    destruct (decide (i < N.to_nat nbins)%nat) as [Hi|Hi].
    - rewrite (Hget i 0%N) by (apply lookup_replicate_2; exact Hi).
      change (map ?f ?l) with (f <$> l). rewrite !list_lookup_fmap.
      rewrite lookup_seq_lt by exact Hi. reflexivity.
    - rewrite lookup_ge_None_2 by lia.
      symmetry. apply lookup_ge_None_2. rewrite !length_map, length_seq. lia. }
  rewrite <- Heq. split; [exact Hfill|].
  rewrite Hsum. clear. induction (N.to_nat nbins) as [|n IH]; simpl; [reflexivity|].
  simpl in IH. lia.
Qed.

(** The printing loop over bins that are all there. *)
Lemma hist_print_rows (c : N -> N) (bins : list N) (todo k : nat) (of_ : string) :
  (forall j, (k <= j < k + todo)%nat -> bins !! j = Some (c (N.of_nat j))) ->
  hist_print todo (N.of_nat k) min binwidth bins of_
  = Ok (of_ +:+ Text.concat
                  (map (fun j => histogram_row min binwidth (N.of_nat j) (c (N.of_nat j)))
                       (seq k todo))).
Proof.
  revert k of_. induction todo as [|todo IH]; intros k of_ Hbins.
  - simpl. now rewrite app_nil_r.
  - cbn [hist_print]. rewrite Nat2N.id, (Hbins k) by lia.
    replace (N.of_nat k + 1)%N with (N.of_nat (S k)) by lia.
    rewrite IH by (intros j Hj; apply Hbins; lia).
    unfold histogram_row. simpl. now rewrite !app_assoc.
Qed.

(** The rows printed for the bins that [hist_fill] has filled from zero. *)
Lemma hist_print_counts (values : list binary64) :
  hist_print (N.to_nat nbins) 0 min binwidth (map (count values) (bin_numbers nbins)) ""
  = Ok (Text.concat (map (fun i => histogram_row min binwidth i (count values i))
                         (bin_numbers nbins))).
Proof.
  pose proof (hist_print_rows (count values) (map (count values) (bin_numbers nbins))
                (N.to_nat nbins) 0 "") as H.
  change (N.of_nat 0) with 0%N in H. rewrite H.
  - unfold bin_numbers. now rewrite map_map, app_nil_l.
  - intros j Hj. unfold bin_numbers.
    change (map ?f ?l) with (f <$> l). rewrite !list_lookup_fmap.
    rewrite lookup_seq_lt by lia. reflexivity.
Qed.

End Filling.

Section HistogramFacts.

Context {print_Q : Print Q} {print_binary64 : Print binary64} {heap : Heap}.

Lemma print_size_t_token (n : N) : token (print n).
Proof.
  unfold print, print_size_t, NilZero.string_of_uint.
  assert (H : forall d, d <> Decimal.Nil -> NilEmpty.string_of_uint d <> "").
  { intros [] Hd; try discriminate. contradiction. }
  destruct (N.to_uint n) eqn:Hd;
    (split; [try discriminate|split; try reflexivity]);
    try (apply (string_of_uint_lacks _ (_ _)); reflexivity).
Qed.

Lemma histogram_row_fields (min binwidth : binary64) (i count : N) :
  token (print (bin_center min binwidth i)) ->
  lacks newline (print (bin_center min binwidth i) +:+ " " +:+ print count)
  /\ fields (print (bin_center min binwidth i) +:+ " " +:+ print count)
     = [print (bin_center min binwidth i); print count].
Proof.
  intros (Hne & Hsp & Hnl). destruct (print_size_t_token count) as (Hne' & Hsp' & Hnl').
  split.
  - rewrite !lacks_app. repeat split; assumption.
  - change (" " +:+ print count) with (String space (print count)).
    rewrite fields_app by assumption. now rewrite fields_last.
Qed.

(** What [histogram] does once the assertions and the check of the mode are
    passed. *)
Lemma histogram_body (values : list binary64) (nbins : N) (label : string)
    (style : LineStyle) (g : Gnuplot) (min max : binary64) :
  values <> [] -> nbins <> 0%N ->
  series g = [] \/ is_3dplot g = false ->
  min_element values = Some min ->
  max_element values = Some max ->
  let binwidth := double_div (double_sub max min) (double_of_size_t nbins) in
  histogram values nbins label style g
  = (bins ← new_bins nbins;
     bins ← hist_fill min binwidth nbins values bins;
     of_ ← hist_print (N.to_nat nbins) 0 min binwidth bins "";
     Ok (with_is_3dplot false
           (with_series
              (series g ++ [ {| data_string := of_; line_style := style;
                                title := label; column_range := "1:2" |} ])
              g))).
Proof.
  intros Hv Hn Hmode Hmin Hmax binwidth. unfold histogram.
  destruct (N.eqb_spec nbins 0) as [?|_]; [contradiction|].
  destruct values as [|x v]; [contradiction|].
  assert (Hcheck : negb (bool_decide (series g = [])) && is_3dplot g = false).
  { destruct Hmode as [Hs| ->]; [now rewrite bool_decide_eq_true_2|apply andb_false_r]. }
  now rewrite Hcheck, Hmin, Hmax.
Qed.

(** A first value whose index comes out negative: [bins.at] is asked for an
    element beyond [2^63], which no vector has. *)
Lemma histogram_index_below_zero (values : list binary64) (nbins : N) (label : string)
    (style : LineStyle) (g : Gnuplot) (min max : binary64) (val : binary64)
    (rest : list binary64) (index : Z) :
  values = val :: rest ->
  nbins <> 0%N -> (nbins < 2 ^ 63)%N ->
  series g = [] \/ is_3dplot g = false ->
  min_element values = Some min ->
  max_element values = Some max ->
  hist_index min (double_div (double_sub max min) (double_of_size_t nbins)) nbins val
  = Ok index ->
  INT_MIN <= index < 0 ->
  histogram values nbins label style g
  = Fault match allocate nbins with
          | allocated => OutOfRange
          | length_error => LengthError
          | bad_alloc => BadAlloc
          end.
Proof.
  intros -> Hn Hn' Hmode Hmin Hmax Hindex Hneg.
  rewrite (histogram_body _ _ _ _ _ min max) by (assumption || discriminate).
  unfold new_bins. destruct (allocate nbins); try reflexivity.
  cbn [hist_fill]. unfold mbind at 3, result_bind at 3.
  rewrite Hindex. unfold mbind, result_bind, at_increment.
  rewrite length_replicate, N2Nat.id.
  pose proof (size_t_of_int_negative index Hneg).
  destruct (N.ltb_spec (size_t_of_int index) nbins); [lia|reflexivity].
Qed.


(** C1, where the code misses it.  For the values [0.0] and [1.0] and
    [2147483648] bins the bin width is [2^-31]; [int(nbins)] is [INT_MIN], so
    the test [index >= int(nbins)] holds for the index [0] of the first value,
    which is lowered to [-1]; [bins.at(-1)] throws [std::out_of_range], when
    the allocation of the counters has not thrown before.  The call never
    returns, on any heap and for any printing: no series is appended. *)
Theorem histogram_2147483648_bins (executable_name : string) (persist : bool)
    (safe_popen : string -> string -> bool) :
  let g := Gnuplot_new executable_name persist safe_popen in
  let values := [double_of_Z 0; double_of_Z 1] in
  let nbins := 2147483648%N in
  min_element values = Some (double_of_Z 0)
  /\ max_element values = Some (double_of_Z 1)
  /\ double_of_Z 0 <> double_of_Z 1
  /\ int_of_size_t nbins = INT_MIN
  /\ double_div (double_sub (double_of_Z 1) (double_of_Z 0)) (double_of_size_t nbins)
     = S754_finite false 4503599627370496 (-83)
  /\ hist_index (double_of_Z 0) (S754_finite false 4503599627370496 (-83)) nbins
       (double_of_Z 0) = Ok (-1)
  /\ histogram values nbins "" BOXES g
     = Fault match allocate nbins with
             | allocated => OutOfRange
             | length_error => LengthError
             | bad_alloc => BadAlloc
             end
  /\ forall g', histogram values nbins "" BOXES g <> Ok g'.
Proof.
  intros g values nbins.
  assert (Hindex : hist_index (double_of_Z 0)
                     (double_div (double_sub (double_of_Z 1) (double_of_Z 0))
                                 (double_of_size_t nbins))
                     nbins (double_of_Z 0) = Ok (-1))
    by (vm_compute; reflexivity).
  assert (Hrun : histogram values nbins "" BOXES g
                 = Fault match allocate nbins with
                         | allocated => OutOfRange
                         | length_error => LengthError
                         | bad_alloc => BadAlloc
                         end).
  { apply (histogram_index_below_zero values nbins "" BOXES g
             (double_of_Z 0) (double_of_Z 1) (double_of_Z 0) [double_of_Z 1] (-1)).
    - reflexivity.
    - discriminate.
    - reflexivity.
    - left. apply Gnuplot_new_fields.
    - reflexivity.
    - reflexivity.
    - exact Hindex.
    - unfold INT_MIN. lia. }
  split; [reflexivity|]. split; [reflexivity|]. split; [discriminate|].
  split; [reflexivity|]. split; [vm_compute; reflexivity|].
  split; [vm_compute; reflexivity|]. split; [exact Hrun|].
  intros g'. rewrite Hrun. discriminate.
Qed.

End HistogramFacts.

(** ** The methods on concrete data *)

Section Runs.

#[local] Existing Instance DefaultFormat.print_g.
#[local] Existing Instance DefaultFormat.print_binary64_g.
Import Demo.
#[local] Existing Instance small_heap.

Local Open Scope Q_scope.

(** Checks by computation that the printed numbers of a list are column
    entries. *)
Local Ltac column_entries :=
  repeat match goal with |- Forall _ _ => constructor end;
  try (split; [vm_compute; discriminate | split; vm_compute; reflexivity]).

Example fresh_session :
  fresh = {| connection := Some ("set encoding utf8" +:+ nl +:+ nl
                                 +:+ "set minussign" +:+ nl);
             series := []; files_to_delete := [];
             xrange := "[]"; yrange := "[]"; zrange := "[]"; is_3dplot := false |}.
Proof. reflexivity. Qed.

(** The histogram of the specification: [1, 2, 3, 4, 5] in two bins. *)
Example histogram_of_five_values :
  let bw := double_div (double_sub (double_of_Z 5) (double_of_Z 1)) (double_of_size_t 2) in
  histogram (doubles [1; 2; 3; 4; 5]%Z) 2 "Histogram" BOXES fresh
  = Ok (with_series [ {| data_string := "2 2" +:+ nl +:+ "4 3" +:+ nl;
                         line_style := BOXES; title := "Histogram";
                         column_range := "1:2" |} ] fresh)
  /\ bw = double_of_Z 2
  /\ bin_center (double_of_Z 1) bw 0 = double_of_Z 2
  /\ bin_center (double_of_Z 1) bw 1 = double_of_Z 4
  /\ hist_fill (double_of_Z 1) bw 2 (doubles [1; 2; 3; 4; 5]%Z) [0; 0]%N = Ok [2; 3]%N
  /\ static_cast_int (double_div (double_sub (double_of_Z 5) (double_of_Z 1)) bw)
     = Ok 2%Z
  /\ hist_index (double_of_Z 1) bw 2 (double_of_Z 5) = Ok 1%Z.
Proof. vm_compute. repeat split. Qed.

(** Rounding shows: of [0, 9, 18] in 14 bins, the quotient of [9] by the
    bin width [18 / 14] is just below [7], and [9] is counted in bin [6]. *)
Example histogram_of_0_9_18 :
  let bw := double_div (double_sub (double_of_Z 18) (double_of_Z 0)) (double_of_size_t 14) in
  hist_index (double_of_Z 0) bw 14 (double_of_Z 9) = Ok 6%Z
  /\ hist_fill (double_of_Z 0) bw 14 (doubles [0; 9; 18]%Z) (replicate 14 0%N)
     = Ok [1; 0; 0; 0; 0; 0; 1; 0; 0; 0; 0; 0; 0; 1]%N.
Proof. vm_compute. repeat split. Qed.

(** Overflow: for [-1e308] and [1e308] the difference [max - min] is
    infinite, the quotient of [max] is NaN, and its conversion to [int] is
    undefined. *)
Example histogram_of_huge_values :
  let huge := double_of_Z (10 ^ 308) in
  let values := [SFopp huge; huge] in
  Forall (fun x => is_binary64 x = true) values
  /\ double_sub huge (SFopp huge) = S754_infinity false
  /\ double_div (double_sub huge (SFopp huge))
                (double_div (double_sub huge (SFopp huge)) (double_of_size_t 1))
     = S754_nan
  /\ histogram values 1 "" BOXES fresh = Fault (Undefined float_to_int).
Proof. vm_compute. repeat split; repeat constructor. Qed.

(** Underflow: for [0] and the smallest positive double in two bins the bin
    width is zero, and the quotient of [max] is infinite. *)
Example histogram_of_tiny_values :
  let tiny := S754_finite false 1 (-1074) in
  let values := [double_of_Z 0; tiny] in
  Forall (fun x => is_binary64 x = true) values
  /\ double_div (double_sub tiny (double_of_Z 0)) (double_of_size_t 2)
     = S754_zero false
  /\ double_div (double_sub tiny (double_of_Z 0)) (S754_zero false)
     = S754_infinity false
  /\ histogram values 2 "" BOXES fresh = Fault (Undefined float_to_int).
Proof. vm_compute. repeat split; repeat constructor. Qed.

(** Rounded centers: between [1e16] and [1e16 + 4] in four bins, the centers
    of bins 1 and 2 are the same double, and the code puts it in bin 2. *)
Example bin_centers_at_1e16 :
  let min := double_of_Z (10 ^ 16) in
  let bw := double_div (double_sub (double_of_Z (10 ^ 16 + 4)) min) (double_of_size_t 4) in
  bw = double_of_Z 1
  /\ bin_center min bw 0 = min
  /\ bin_center min bw 1 = double_of_Z (10 ^ 16 + 2)
  /\ bin_center min bw 2 = double_of_Z (10 ^ 16 + 2)
  /\ bin_center min bw 3 = double_of_Z (10 ^ 16 + 4)
  /\ hist_index min bw 4 (bin_center min bw 1) = Ok 2%Z.
Proof. vm_compute. repeat split. Qed.




(** The claim of C3 at [x = [1]], [y = [1, 2]]: [plot] returns and appends
    a series of one row. *)
Lemma plot_longer_companion_accepted :
  length [1] <> length [1; 2]
  /\ step (call_plot [1] [1; 2] "" LINES) fresh
     = Ok (with_series [ {| data_string := "1 1 " +:+ nl; line_style := LINES;
                            title := ""; column_range := "1:2" |} ] fresh).
Proof. split; [discriminate|reflexivity]. Qed.

Lemma lengths_are_not_compared_witness :
  (exists label style,
      step (call_plot_xerr [1; 2] [3; 4; 5] [6; 7] "") fresh
      = Ok (with_is_3dplot false
              (with_series
                 (series fresh ++ [plotted_series label style [1; 2] [[3; 4; 5]; [6; 7]]])
                 fresh)))
  /\ step (call_plot_xerr [1; 2] [3] [6; 7] "") fresh
     = Fault (Undefined read_past_the_end).
Proof.
  split.
  - apply (lengths_are_not_compared
             (call_plot_xerr [1; 2] [3; 4; 5] [6; 7] "") [1; 2] [[3; 4; 5]; [6; 7]]
             false fresh);
      [reflexivity|discriminate|reflexivity|now left|].
    repeat constructor.
  - apply (lengths_are_not_compared
             (call_plot_xerr [1; 2] [3] [6; 7] "") [1; 2] [[3]; [6; 7]] false fresh);
      [reflexivity|discriminate|reflexivity|now left|].
    apply Exists_cons_hd. simpl. lia.
Defined.

(** A 3D series, then calls that do not reset, then a 2D series. *)
Lemma mode_fixed_by_first_series_witness :
  is_3dplot after_more_calls = true
  /\ step (T := Q) (call_plot [1] [2] "" LINES) after_more_calls
     = Fault (AssertionFailed same_dimensionality)
  /\ step (T := Q) (call_histogram (doubles [1; 2]%Z) 2 "" BOXES) after_more_calls
     = Fault (AssertionFailed not_3dplot).
Proof.
  assert (H : forall later : call Q,
             is_3dplot after_more_calls = true
             /\ (forall d', added_dimension later = Some d' -> d' <> true ->
                  step later after_more_calls = Fault (AssertionFailed same_dimensionality)
                  \/ step later after_more_calls = Fault (AssertionFailed not_3dplot)
                  \/ step later after_more_calls = Fault (AssertionFailed nbins_positive))).
  { intros later.
    destruct (mode_fixed_by_first_series fresh after_first_3d after_more_calls
                first_3d later more_calls true)
      as (_ & _ & _ & _ & _ & Hmode & Hlater & _); try reflexivity.
    split; [exact Hmode|exact Hlater]. }
  split; [apply (H first_3d)|]. split.
  - destruct (H (call_plot (T := Q) [1] [2] "" LINES)) as [_ Hl].
    destruct (Hl false eq_refl ltac:(discriminate)) as [Hf|[Hf|Hf]];
      [exact Hf|vm_compute in Hf; discriminate..].
  - destruct (H (call_histogram (T := Q) (doubles [1; 2]%Z) 2 "" BOXES)) as [_ Hl].
    destruct (Hl false eq_refl ltac:(discriminate)) as [Hf|[Hf|Hf]];
      [vm_compute in Hf; discriminate|exact Hf|vm_compute in Hf; discriminate].
Defined.

Lemma format_range_descriptor_witness :
  format_range NaN NaN = "[]"
  /\ format_range (Num 0) NaN = "[0:*]"
  /\ count_char star (format_range NaN (Num (3 # 2))) = 1%nat
  /\ format_range (Num 0) (Num 6) = "[0:6]"
  /\ count_char star (format_range (Num 0) (Num 6)) = 0%nat.
Proof.
  destruct (format_range_descriptor NaN NaN fresh) as (_ & _ & _ & Hauto & _).
  destruct (format_range_descriptor (Num 0) NaN fresh)
    as (_ & _ & _ & _ & _ & _ & Hlow & _).
  destruct (format_range_descriptor NaN (Num (3 # 2)) fresh)
    as (_ & _ & _ & _ & _ & Hhigh & _).
  destruct (format_range_descriptor (Num 0) (Num 6) fresh)
    as (_ & _ & _ & _ & _ & _ & _ & Hboth).
  split; [now apply Hauto|].
  split; [now apply Hlow|].
  split; [now apply Hhigh|].
  split; now apply Hboth.
Defined.

(** The claim of C7 on a session without pending series: [show(true)]
    returns [true] and the X range stays fixed. *)
Lemma show_without_series_keeps_ranges :
  series fixed_x_range = []
  /\ show true fixed_x_range = (true, fixed_x_range)
  /\ xrange (snd (show true fixed_x_range)) = "[0:6]"
  /\ xrange (snd (show true fixed_x_range)) <> "[]".
Proof. repeat split. discriminate. Qed.

Lemma show_resets_after_sending_witness :
  xrange ready_to_show = "[0:6]"
  /\ fst (show true ready_to_show) = true
  /\ series (snd (show true ready_to_show)) = []
  /\ xrange (snd (show true ready_to_show)) = "[]"
  /\ zrange (snd (show true ready_to_show)) = "[0:1]"
  /\ show true (with_connection None ready_to_show)
     = (false, with_connection None ready_to_show).
Proof.
  destruct (show_resets_after_sending ready_to_show) as (_ & Hsent & _).
  destruct (show_resets_after_sending (with_connection None ready_to_show))
    as (_ & _ & Hdead & _).
  destruct Hsent as (sent & _ & Hshow & Hs & Hx & _ & _ & Hz);
    [discriminate|reflexivity|].
  split; [reflexivity|]. split; [now rewrite Hshow|].
  split; [exact Hs|]. split; [exact Hx|]. split; [now rewrite Hz|].
  apply Hdead; [discriminate|reflexivity].
Defined.



Lemma show_without_series_witness :
  show true fresh = (true, fresh) /\ show false (with_connection None fresh)
                                    = (true, with_connection None fresh).
Proof.
  split.
  - apply (show_without_series true fresh). reflexivity.
  - apply (show_without_series false (with_connection None fresh)). reflexivity.
Defined.

Lemma files_to_delete_always_empty_witness :
  files_to_delete after_script = [] /\ destructor after_script = [pclose; sleep 1].
Proof.
  destruct (files_to_delete_always_empty (T := Q)) as (_ & _ & Hreach).
  destruct (Hreach after_script) as (Hfiles & Hdestructor & _).
  - exists "gnuplot", true, (fun _ _ => true), script. vm_compute. reflexivity.
  - split; [exact Hfiles|]. rewrite Hdestructor. vm_compute. reflexivity.
Defined.

End Runs.

(** * Further properties of the session *)

(** ** More on [escape_quotes] and [format_range] *)

Section QuotingFacts.

Context {print_Q : Print Q}.

Lemma double_each_quote_app (s t : string) :
  double_each_quote (s +:+ t) = double_each_quote s +:+ double_each_quote t.
Proof.
  induction s as [|c s IH]; [reflexivity|].
  rewrite app_cons. simpl. rewrite IH. now destruct (Ascii.eqb c quote).
Qed.

Lemma double_each_quote_count (c : ascii) (s : string) :
  count_char c (double_each_quote s)
  = (count_char c s + (if Ascii.eqb c quote then count_char c s else 0))%nat.
Proof.
  induction s as [|a s IH]; [now destruct (Ascii.eqb c quote)|].
  cbn [double_each_quote count_char].
  destruct (Ascii.eqb_spec a quote) as [->|Ha]; cbn [count_char]; rewrite IH;
    destruct (Ascii.eqb_spec c quote) as [->|Hc].
  - rewrite Ascii.eqb_refl. lia.
  - destruct (Ascii.eqb_spec quote c) as [<-|_]; [contradiction|lia].
  - destruct (Ascii.eqb_spec a quote) as [?|_]; [contradiction|lia].
  - destruct (Ascii.eqb a c); lia.
Qed.

(** X1. Escaping works piece by piece: the escaped text of [s ++ t] is the
    escaped text of [s] followed by that of [t].  It holds twice the quotes
    of the original, so never an odd number, and as many of every other
    character.  Two different texts never have the same escaped text. *)
Theorem escape_quotes_piecewise (s t : string) (c : ascii) :
  escape_quotes (s +:+ t) = escape_quotes s +:+ escape_quotes t
  /\ count_char quote (escape_quotes s) = (2 * count_char quote s)%nat
  /\ (c <> quote -> count_char c (escape_quotes s) = count_char c s)
  /\ (escape_quotes s = escape_quotes t -> s = t).
Proof.
  rewrite !escape_quotes_eq. split; [apply double_each_quote_app|]. split; [|split].
  - rewrite double_each_quote_count. change (Ascii.eqb quote quote) with true. lia.
  - intros Hc. rewrite double_each_quote_count.
    destruct (Ascii.eqb_spec c quote); [contradiction|lia].
  - intros H. apply (f_equal (fun e => split_on_lone_quotes e "")) in H.
    rewrite !split_double_each_quote in H. now injection H.
Qed.

(** X2. The range text is ["[]"] exactly when both bounds are NaN: a range
    with one bound fixed is never stored as fully automatic, whatever the
    printing of numbers. *)
Theorem format_range_automatic_iff (min max : double) :
  format_range min max = "[]" <-> isnan min = true /\ isnan max = true.
Proof.
  split.
  - intros H. destruct (isnan min && isnan max) eqn:Hnan.
    + now apply andb_true_iff in Hnan.
    + exfalso. rewrite (format_range_bounded _ _ Hnan) in H.
      rewrite app_cons, app_nil_l in H. injection H as H.
      destruct (bound_text min) as [|a b].
      * rewrite app_nil_l, app_cons in H. discriminate.
      * rewrite app_cons in H. injection H as _ H.
        destruct b; rewrite ?app_nil_l, app_cons in H; discriminate.
  - intros [Hmin Hmax]. unfold format_range. now rewrite Hmin, Hmax.
Qed.

End QuotingFacts.

(** ** What every call leaves alone *)

(** Brings a call that has returned to the method it ran. *)
Ltac step_inversion c H :=
  destruct c as [str|f sz|f sz|f sz|f w h m|l|l|lo hi|lo hi|lo hi|scale
                |y l st|x y l st|x y e l|x y e l|x y xe ye l|x y vx vy l
                |x y z l st|x y z vx vy vz l|values nbins l st|r k t|reset_after|];
  cbn [step] in H;
  unfold redirect_to_png, redirect_to_pdf, redirect_to_svg, redirect_to_dumb,
    set_xlabel, set_ylabel, multiplot,
    plot_y, plot, plot_xerr, plot_yerr, plot_xyerr, plot_vectors, plot3d,
    plot_vectors3d in H;
  try (destruct scale; cbn [set_logscale] in H);
  first [ injection H as H
        | apply _plot_returns in H as [[? H]|(? & ? & ? & ? & ? & H)]
        | apply histogram_returns in H as [[? H]|(? & ? & ? & H)] ];
  subst.

Section CallFrames.

Context {T : Type} {print_T : Print T} {print_Q : Print Q}.
Context {print_binary64 : Print binary64} {heap : Heap}.

Lemma sendcommand_is_command_method (str : string) : command_method (sendcommand str).
Proof.
  intros g. unfold sendcommand, ok. destruct (connection g) as [sent|] eqn:Hc.
  - repeat split; try discriminate. intros sent' [= <-]. now exists (c_str str).
  - repeat split. intros sent' [=].
Qed.

(** X3. Each of the methods that configure gnuplot ([sendcommand], the four
    [redirect_to_...], [set_xlabel], [set_ylabel], [set_logscale],
    [multiplot]) returns [true] exactly when the connection is open; it never
    touches the pending series, the ranges, the 3D flag or the list of files;
    on a closed connection it changes nothing, and on an open one it adds one
    text closed by a line feed to what was sent before. *)
Theorem configuration_methods_send_one_command
    (str filename size label title : string) (width height : N)
    (mode : TerminalMode) (scale : AxisScale) (nrows ncols : Z) :
  command_method (sendcommand str)
  /\ command_method (redirect_to_png filename size)
  /\ command_method (redirect_to_pdf filename size)
  /\ command_method (redirect_to_svg filename size)
  /\ command_method (redirect_to_dumb filename width height mode)
  /\ command_method (set_xlabel label)
  /\ command_method (set_ylabel label)
  /\ command_method (set_logscale scale)
  /\ command_method (multiplot nrows ncols title).
Proof.
  repeat split; try apply sendcommand_is_command_method;
    destruct scale; apply sendcommand_is_command_method.
Qed.

(** What [show] does to a session, case by case. *)
Lemma show_cases (call_reset : bool) (g : Gnuplot) :
  (series g = [] /\ show call_reset g = (true, g))
  \/ (series g <> [] /\ connection g = None /\ show call_reset g = (false, g))
  \/ (exists sent,
        series g <> [] /\ connection g = Some sent
        /\ show call_reset g
           = (true,
              if call_reset
              then reset (with_connection (Some (sent +:+ c_str (show_text g) +:+ nl)) g)
              else with_connection (Some (sent +:+ c_str (show_text g) +:+ nl)) g)).
Proof.
  unfold show. destruct (series g) as [|s ss] eqn:Hs; [now left|]. right.
  unfold sendcommand. destruct (connection g) as [sent|] eqn:Hc.
  - right. exists sent. split; [discriminate|]. split; [reflexivity|].
    now destruct call_reset.
  - left. split; [discriminate|]. split; reflexivity.
Qed.

Lemma whole_lines_app (a b : string) :
  whole_lines a -> whole_lines b -> whole_lines (a +:+ b).
Proof.
  intros Ha [->|[body ->]]; [now rewrite app_nil_r|].
  right. exists (a +:+ body). now rewrite app_assoc.
Qed.

Lemma connection_grows_refl (g g' : Gnuplot) :
  connection g' = connection g -> connection_grows g g'.
Proof.
  intros H. split; [unfold ok; now rewrite H|].
  intros sent Hs. exists "". rewrite app_nil_r, H. split; [exact Hs|now left].
Qed.

Lemma connection_grows_trans (g1 g2 g3 : Gnuplot) :
  connection_grows g1 g2 -> connection_grows g2 g3 -> connection_grows g1 g3.
Proof.
  intros [Hok1 H1] [Hok2 H2]. split; [now rewrite Hok2|].
  intros sent Hs. destruct (H1 sent Hs) as (m1 & Hc1 & Hw1).
  destruct (H2 _ Hc1) as (m2 & Hc2 & Hw2).
  exists (m1 +:+ m2). rewrite <- app_assoc. split; [exact Hc2|].
  now apply whole_lines_app.
Qed.

Lemma sendcommand_grows (str : string) (g : Gnuplot) :
  connection_grows g (snd (sendcommand str g)).
Proof.
  unfold sendcommand. destruct (connection g) as [sent|] eqn:Hc.
  - split; [unfold ok; simpl; now rewrite Hc|].
    intros sent' Hs. rewrite Hc in Hs. injection Hs as <-.
    exists (c_str str +:+ nl). split; [reflexivity|]. right. now exists (c_str str).
  - now apply connection_grows_refl.
Qed.

Lemma step_connection_grows (c : call T) (g g' : Gnuplot) :
  step c g = Ok g' -> connection_grows g g'.
Proof.
  intros H. step_inversion c H;
    try apply sendcommand_grows; try (now apply connection_grows_refl).
  destruct (show_cases reset_after g) as [[_ ->]|[(_ & _ & ->)|(sent & _ & Hc & ->)]];
    try (now apply connection_grows_refl).
  split; [unfold ok; rewrite Hc; now destruct reset_after|].
  intros sent' Hs. rewrite Hc in Hs. injection Hs as <-.
  exists (c_str (show_text g) +:+ nl). split; [now destruct reset_after|].
  right. now exists (c_str (show_text g)).
Qed.

Lemma run_connection_grows (cs : list (call T)) (g g' : Gnuplot) :
  run cs g = Ok g' -> connection_grows g g'.
Proof.
  revert g. induction cs as [|c cs IH]; intros g; simpl.
  - intros [= <-]. now apply connection_grows_refl.
  - destruct (step c g) as [g1|] eqn:Hstep; [|discriminate]. simpl.
    intros Hrun. apply (connection_grows_trans g g1 g').
    + now apply (step_connection_grows c).
    + now apply IH.
Qed.

(** X4. No call opens or closes the connection, and no call takes back what
    was sent: after any call that returns, the text received is the text
    received before, followed by whole lines.  So whether a session works is
    settled when it is built, by whether the process started; and an open
    session has always received first the two commands of the constructor,
    then whole lines. *)
Theorem connection_only_grows (executable_name : string) (persist : bool)
    (safe_popen : string -> string -> bool) (cs : list (call T)) (g : Gnuplot) :
  run cs (Gnuplot_new executable_name persist safe_popen) = Ok g ->
  (forall (c : call T) (g1 g2 : Gnuplot), step c g1 = Ok g2 -> connection_grows g1 g2)
  /\ ok g = safe_popen (popen_command executable_name persist) "w"
  /\ (ok g = false -> connection g = None)
  /\ (ok g = true ->
      exists more, connection g = Some (preamble +:+ more) /\ whole_lines more).
Proof.
  intros Hrun. apply run_connection_grows in Hrun as [Hok Hgrow].
  split; [apply step_connection_grows|].
  assert (Hnew : ok (Gnuplot_new executable_name persist safe_popen)
                 = safe_popen (popen_command executable_name persist) "w"
                 /\ (safe_popen (popen_command executable_name persist) "w" = true ->
                     connection (Gnuplot_new executable_name persist safe_popen)
                     = Some preamble)).
  { unfold Gnuplot_new.
    destruct (safe_popen (popen_command executable_name persist) "w"); now split. }
  destruct Hnew as [Hnew Hpre]. rewrite Hok, Hnew. split; [reflexivity|]. split.
  - rewrite <- Hnew, <- Hok. unfold ok. now destruct (connection g).
  - intros Hlive. apply (Hgrow preamble). now apply Hpre.
Qed.

(** X5. A call that returns does one of three things to the list of pending
    series: it runs [reset], which empties the list; or it keeps the list; or
    it adds one series at its end, and then it is one of the calls that add a
    series from a non-empty first vector.  A pending series is never changed,
    moved or dropped on its own. *)
Theorem pending_series_append_only (c : call T) (g g' : Gnuplot) :
  step c g = Ok g' ->
  (runs_reset c g = true /\ series g' = [])
  \/ (runs_reset c g = false
      /\ (series g' = series g
          \/ exists s, series g' = series g ++ [s] /\ added_dimension c <> None)).
Proof.
  intros H. step_inversion c H;
    try (right; split; [reflexivity|]; left;
         first [ apply sendcommand_frame | reflexivity ]);
    try (right; split; [reflexivity|]; right; eexists; split; [reflexivity|];
         match goal with
         | Hv : ?v <> [] |- _ => destruct v; [contradiction|discriminate]
         end).
  - destruct (show_cases reset_after g)
      as [(Hs & ->)|[(Hs & Hc & ->)|(sent & Hs & Hc & ->)]]; cbn [runs_reset snd].
    + right. rewrite bool_decide_eq_true_2 by exact Hs. now split; [|left].
    + right. unfold ok. rewrite Hc, andb_false_r. now split; [|left].
    + unfold ok. rewrite Hc, bool_decide_eq_false_2 by exact Hs.
      destruct reset_after; [left|right]; split; try reflexivity. now left.
  - left. now split.
Qed.

(** X6. The Z range changes through [set_zrange] only: every other call that
    returns, [reset] and [show] included, leaves it as it is.  The X and Y
    ranges change through their setter, or when [reset] runs, which stores
    ["[]"] in both; every other call leaves them as they are. *)
Theorem ranges_change_by_setters_only (c : call T) (g g' : Gnuplot) :
  step c g = Ok g' ->
  (sets_zrange c = false -> zrange g' = zrange g)
  /\ (sets_xrange c = false -> runs_reset c g = false -> xrange g' = xrange g)
  /\ (sets_yrange c = false -> runs_reset c g = false -> yrange g' = yrange g)
  /\ (runs_reset c g = true -> xrange g' = "[]" /\ yrange g' = "[]").
Proof.
  intros H. step_inversion c H;
    try (repeat split; try discriminate; intros; first [ apply sendcommand_frame | reflexivity ]).
  destruct (show_cases reset_after g)
    as [(Hs & ->)|[(Hs & Hc & ->)|(sent & Hs & Hc & ->)]]; cbn [runs_reset snd].
  - rewrite bool_decide_eq_true_2 by exact Hs. repeat split; discriminate.
  - unfold ok. rewrite Hc, andb_false_r. repeat split; discriminate.
  - unfold ok. rewrite Hc, bool_decide_eq_false_2 by exact Hs.
    destruct reset_after; repeat split; discriminate.
Qed.

End CallFrames.

(** ** What holds of every session *)

Section Invariants.

Context {T : Type} {print_T : Print T} {print_Q : Print Q}.
Context {print_binary64 : Print binary64} {heap : Heap}.

Lemma _print_ith_elements_returns (vs : list (list T)) (os fmts : string)
    (index : Z) (i : nat) (r : string * string) :
  _print_ith_elements os fmts index i vs = Ok r ->
  Forall (fun v => (i < length v)%nat) vs.
Proof.
  intros H. destruct (decide (Forall (fun v => (i < length v)%nat) vs)) as [?|Hn];
    [assumption|].
  apply not_Forall_Exists in Hn; [|intros v; apply _].
  rewrite _print_ith_elements_short in H; [discriminate|].
  eapply Exists_impl; [exact Hn|]. simpl. intros; lia.
Qed.

(** A loop of [_plot] that returns has found every row in every vector. *)
Lemma _plot_loop_returns (todo i : nat) (vs : list (list T)) (of_ fmtstring : string)
    (r : string * string) :
  _plot_loop (S todo) i vs of_ fmtstring = Ok r ->
  Forall (fun v => (i + S todo <= length v)%nat) vs.
Proof.
  revert i of_ fmtstring. induction todo as [|todo IH]; intros i of_ fmtstring H;
    cbn [_plot_loop] in H;
    destruct (_print_ith_elements of_ fmtstring 1 i vs) as [[o f]|] eqn:Hp;
    try discriminate; apply _print_ith_elements_returns in Hp.
  - eapply Forall_impl; [exact Hp|]. simpl. intros; lia.
  - apply IH in H. eapply Forall_impl; [exact H|]. simpl. intros; lia.
Qed.

(** The series a returning [_plot] has appended, and what its return tells
    about the lengths. *)
Lemma _plot_returns_series (label : string) (style : LineStyle) (d : bool)
    (v : list T) (args : list (list T)) (g g' : Gnuplot) :
  _plot label style d v args g = Ok g' -> v <> [] ->
  Forall (fun w => (length v <= length w)%nat) args
  /\ g' = with_is_3dplot d
            (with_series (series g ++ [plotted_series label style v args]) g).
Proof.
  intros H Hv. pose proof H as H'.
  apply _plot_returns in H' as [[? _]|(_ & Hmode & of_ & fmt & Hloop & _)];
    [contradiction|].
  assert (Hlen : Forall (fun w => (length v <= length w)%nat) args).
  { destruct v as [|x v]; [contradiction|]. simpl length in Hloop.
    apply _plot_loop_returns in Hloop. inversion Hloop; subst. assumption. }
  split; [exact Hlen|]. rewrite _plot_appends in H by assumption. now injection H.
Qed.

Lemma concat_lines_end (A : Type) (f : A -> string) (l : list A) :
  l <> [] -> exists body, Text.concat (map (fun x => f x +:+ nl) l) = body +:+ nl.
Proof.
  induction l as [|x l IH]; [contradiction|]. intros _. simpl.
  destruct l as [|y l].
  - exists (f x). simpl. now rewrite app_nil_r.
  - destruct IH as [body Hb]; [discriminate|]. rewrite Hb.
    exists (f x +:+ nl +:+ body). now rewrite !app_assoc.
Qed.

Lemma plotted_series_built (label : string) (style : LineStyle)
    (v : list T) (args : list (list T)) :
  v <> [] -> built_series (plotted_series label style v args).
Proof.
  intros Hv. split.
  - apply concat_lines_end. destruct v; [contradiction|discriminate].
  - exists (column_numbers 2 (length args)). reflexivity.
Qed.

Lemma hist_print_lines (todo : nat) (i : N) (min binwidth : binary64) (bins : list N)
    (of_ result : string) :
  hist_print todo i min binwidth bins of_ = Ok result ->
  (todo = 0%nat /\ result = of_) \/ exists body, result = body +:+ nl.
Proof.
  revert i of_. induction todo as [|todo IH]; intros i of_; cbn [hist_print].
  - intros [= <-]. now left.
  - destruct (bins !! N.to_nat i) as [count|]; [|discriminate].
    intros [[_ ->]|Hb]%IH; [|now right]. right.
    exists (of_ +:+ print (bin_center min binwidth i) +:+ " " +:+ print count).
    now rewrite !app_assoc.
Qed.

(** The series a returning [histogram] has appended. *)
Lemma histogram_returns_series (values : list binary64) (nbins : N) (label : string)
    (style : LineStyle) (g g' : Gnuplot) :
  histogram values nbins label style g = Ok g' -> values <> [] ->
  exists s,
    g' = with_is_3dplot false (with_series (series g ++ [s]) g)
    /\ built_series s /\ column_range s = "1:2"
    /\ line_style s = style /\ title s = label.
Proof.
  unfold histogram. destruct (N.eqb_spec nbins 0) as [|Hn]; [discriminate|].
  destruct values as [|x v]; [contradiction|]. intros H _.
  destruct (negb (bool_decide (series g = [])) && is_3dplot g); [discriminate|].
  destruct (min_element (x :: v)) as [min|], (max_element (x :: v)) as [max|];
    try discriminate.
  destruct (new_bins nbins) as [bins0|]; [|discriminate].
  cbn -[hist_fill hist_print] in H.
  destruct (hist_fill _ _ _ _ _) as [bins|]; [|discriminate].
  cbn -[hist_print] in H.
  destruct (hist_print _ _ _ _ _ _) as [of_|] eqn:Hprint; [|discriminate]. cbn in H.
  injection H as <-. eexists. split; [reflexivity|]. split; [|now repeat split].
  split; [|now exists ":2"]. cbn [data_string].
  apply hist_print_lines in Hprint as [[Hz _]|Hb]; [lia|exact Hb].
Qed.

Lemma format_range_exists (min max : double) :
  exists lo hi, format_range min max = format_range lo hi.
Proof. now exists min, max. Qed.

Lemma Gnuplot_new_invariant (executable_name : string) (persist : bool)
    (safe_popen : string -> string -> bool) :
  session_invariant (Gnuplot_new executable_name persist safe_popen).
Proof.
  unfold Gnuplot_new, session_invariant.
  destruct (safe_popen (popen_command executable_name persist) "w"); cbn;
    (split; [discriminate|]); repeat (split; [now exists NaN, NaN|]); constructor.
Qed.

Lemma step_invariant (c : call T) (g g' : Gnuplot) :
  step c g = Ok g' -> session_invariant g -> session_invariant g'.
Proof.
  intros H (Hflag & Hx & Hy & Hz & Hbuilt).
  assert (Hsame : forall g2, same_but_connection g g2 -> session_invariant g2).
  { intros g2 (Hs & _ & Hx2 & Hy2 & Hz2 & Hf2). unfold session_invariant.
    now rewrite Hs, Hx2, Hy2, Hz2, Hf2. }
  assert (Hadd : forall s d, built_series s ->
             session_invariant (with_is_3dplot d (with_series (series g ++ [s]) g))).
  { intros s d Hs. unfold session_invariant. cbn. split; [|repeat split; try assumption].
    - intros _ Hnil. now apply app_eq_nil in Hnil as [_ [=]].
    - apply Forall_app. split; [assumption|]. now constructor. }
  assert (Hreset : forall g2, zrange g2 = zrange g -> session_invariant (reset g2)).
  { intros g2 Hz2. unfold session_invariant. cbn. rewrite Hz2.
    split; [discriminate|]. repeat (split; [now exists NaN, NaN|]).
    split; [assumption|constructor]. }
  pose proof H as H0.
  step_inversion c H; try (apply Hsame, sendcommand_frame);
    try (now repeat split; try apply format_range_exists);
    try (apply _plot_returns_series in H0 as [_ ->]; [|assumption];
         now apply Hadd, plotted_series_built).
  - apply histogram_returns_series in H0 as (s & -> & Hs & _); [|assumption].
    now apply Hadd.
  - destruct (show_cases reset_after g) as [[_ ->]|[(_ & _ & ->)|(sent & _ & _ & ->)]];
      try (now repeat split).
    destruct reset_after; [now apply Hreset|]. now apply Hsame.
Qed.

(** X7. In every session a program can reach: when the 3D flag is set, a
    series is pending; each of the three ranges is a text written by
    [format_range], never the empty text the fields start with; and every
    pending series has data that are not empty and end with a line feed, and
    a column descriptor that starts with column 1. *)
Theorem reachable_sessions_are_well_formed (g : Gnuplot) :
  reachable (T := T) g ->
  (is_3dplot g = true -> series g <> [])
  /\ (exists lo hi, xrange g = format_range lo hi)
  /\ (exists lo hi, yrange g = format_range lo hi)
  /\ (exists lo hi, zrange g = format_range lo hi)
  /\ Forall (fun s => (exists body, data_string s = body +:+ nl)
                      /\ (exists rest, column_range s = "1" +:+ rest))
            (series g).
Proof.
  intros (exe & persist & safe_popen & cs & Hrun).
  change (session_invariant g).
  pose proof (Gnuplot_new_invariant exe persist safe_popen) as Hinv.
  revert Hrun Hinv. generalize (Gnuplot_new exe persist safe_popen).
  induction cs as [|c cs IH]; intros g0; simpl.
  - now intros [= <-].
  - destruct (step c g0) as [g1|] eqn:Hstep; [|discriminate]. simpl.
    intros Hrun Hinv. apply (IH g1 Hrun). now apply (step_invariant c g0).
Qed.

End Invariants.

(** ** The text of [show], for any number of pending series *)

Section ShowText.

Context {print_Q : Print Q}.

Lemma show_datablocks_blocks (ss : list GnuplotSeries) (k : nat) (os : string) :
  show_datablocks ss (N.of_nat k) os
  = os +:+ Text.concat (imap (fun j s => datablock_text (k + j) s) ss).
Proof.
  revert k os. induction ss as [|s ss IH]; intros k os.
  - simpl. now rewrite app_nil_r.
  - cbn [show_datablocks]. replace (N.of_nat k + 1)%N with (N.of_nat (S k)) by lia.
    assert (Hrest : imap (fun j s0 => datablock_text (S k + j) s0) ss
                    = imap ((fun j s0 => datablock_text (k + j) s0) ∘ S) ss).
    { apply imap_ext. intros j x _. simpl. now rewrite Nat.add_succ_r. }
    rewrite IH, imap_cons, Hrest. cbn [Text.concat]. rewrite Nat.add_0_r.
    unfold datablock_text at 2. now rewrite !app_assoc.
Qed.

Lemma string_concat_cons (sep x : string) (l : list string) :
  l <> [] -> String.concat sep (x :: l) = x +:+ sep +:+ String.concat sep l.
Proof. destruct l; [contradiction|reflexivity]. Qed.

Lemma show_clauses_clauses (ss : list GnuplotSeries) (k : nat) (os : string) :
  show_clauses ss (N.of_nat k) os
  = os +:+ String.concat ", " (imap (fun j s => clause_text (k + j) s) ss).
Proof.
  revert k os. induction ss as [|s ss IH]; intros k os.
  - simpl. now rewrite app_nil_r.
  - cbn [show_clauses]. replace (N.of_nat k + 1)%N with (N.of_nat (S k)) by lia.
    rewrite IH, imap_cons, Nat.add_0_r.
    assert (Hrest : imap (fun j s0 => clause_text (S k + j) s0) ss
                    = imap ((fun j s0 => clause_text (k + j) s0) ∘ S) ss).
    { apply imap_ext. intros j x _. simpl. now rewrite Nat.add_succ_r. }
    rewrite Hrest. destruct ss as [|s' ss].
    + simpl. unfold clause_text. now rewrite !app_assoc, !app_nil_r.
    + rewrite string_concat_cons by (rewrite imap_cons; discriminate).
      unfold clause_text at 2. now rewrite !app_assoc.
Qed.

Lemma show_text_parts (g : Gnuplot) :
  show_text g
  = "set style fill solid 0.5" +:+ nl
    +:+ Text.concat (imap datablock_text (series g))
    +:+ plot_prefix g
    +:+ String.concat ", " (imap clause_text (series g)).
Proof.
  unfold show_text, plot_prefix.
  change 0%N with (N.of_nat 0). rewrite show_clauses_clauses.
  destruct (is_3dplot g); rewrite show_datablocks_blocks; now rewrite !app_assoc.
Qed.

(** X8. The text [show] builds, for any pending series: the fill style line;
    then one inline data block per series, in the order of the list and
    numbered from 0, each holding the data of its series between the header
    and [EOD]; then the plot command, [splot] with three ranges in 3D mode
    and [plot] with two otherwise, followed by one clause per series in the
    same order and with the same numbers, two clauses being separated by a
    comma and no comma following the last.  There are as many blocks, and as
    many clauses, as pending series. *)
Theorem show_text_blocks_and_clauses (g : Gnuplot) :
  show_text g
  = "set style fill solid 0.5" +:+ nl
    +:+ Text.concat (imap datablock_text (series g))
    +:+ plot_prefix g
    +:+ String.concat ", " (imap clause_text (series g))
  /\ length (imap datablock_text (series g)) = length (series g)
  /\ length (imap clause_text (series g)) = length (series g).
Proof.
  split; [apply show_text_parts|]. now rewrite !length_imap.
Qed.

End ShowText.

Section ShowBlocks.

Lemma split_on_not_nil (sep : ascii) (s : string) : split_on sep s <> [].
Proof.
  destruct s as [|a s]; [discriminate|]. simpl.
  destruct (Ascii.eqb a sep); [discriminate|]. now destruct (split_on sep s).
Qed.

Lemma split_on_app_any (sep : ascii) (s t : string) :
  split_on sep (s +:+ String sep t) = split_on sep s ++ split_on sep t.
Proof.
  induction s as [|a s IH].
  - rewrite app_nil_l. simpl. now rewrite Ascii.eqb_refl.
  - rewrite app_cons. simpl. rewrite IH.
    destruct (Ascii.eqb a sep); [reflexivity|].
    pose proof (split_on_not_nil sep s). now destruct (split_on sep s).
Qed.

Lemma lines_app_any (a b : string) : lines (a +:+ nl +:+ b) = lines a ++ lines b.
Proof. apply split_on_app_any. Qed.

Lemma datablock_header_lacks_newline (i : nat) :
  lacks newline ("$Datablock" +:+ print (N.of_nat i) +:+ " << EOD").
Proof.
  destruct (print_size_t_token (N.of_nat i)) as (_ & _ & Hnl).
  rewrite !lacks_app. now repeat split.
Qed.

Lemma datablock_header_is_header (i : nat) :
  is_block_header ("$Datablock" +:+ print (N.of_nat i) +:+ " << EOD") = true.
Proof.
  destruct (print_size_t_token (N.of_nat i)) as (_ & Hsp & _).
  unfold is_block_header.
  replace ("$Datablock" +:+ print (N.of_nat i) +:+ " << EOD")
    with (("$Datablock" +:+ print (N.of_nat i)) +:+ String space "<< EOD")
    by (now rewrite app_assoc).
  rewrite fields_app.
  - reflexivity.
  - rewrite app_cons. discriminate.
  - rewrite lacks_app. now split.
Qed.

Lemma datablock_lines (i : nat) (s : GnuplotSeries) (rest : string) :
  lines (datablock_text i s +:+ rest)
  = ("$Datablock" +:+ print (N.of_nat i) +:+ " << EOD")
      :: lines (data_string s) ++ "EOD" :: lines rest.
Proof.
  unfold datablock_text. rewrite !app_assoc.
  rewrite <- (app_assoc "$Datablock"), <- (app_assoc ("$Datablock" +:+ _)).
  rewrite lines_one by (rewrite app_assoc; apply datablock_header_lacks_newline).
  rewrite lines_app_any, lines_one by reflexivity. now rewrite !app_assoc.
Qed.

(** Reading back the blocks of the series [ss], numbered from [k]. *)
Lemma datablocks_of_blocks (ss : list GnuplotSeries) (k : nat) (rest : string) :
  Forall (fun s => Forall (fun l => l <> "EOD") (lines (data_string s))) ss ->
  datablocks_from
    (lines (Text.concat (imap (fun j s => datablock_text (k + j) s) ss) +:+ rest)) None
  = map (fun s => lines (data_string s)) ss ++ datablocks_from (lines rest) None.
Proof.
  intros H. revert k. induction H as [|s ss Hs _ IH]; intros k; [reflexivity|].
  assert (Hrest : imap ((fun j s0 => datablock_text (k + j) s0) ∘ S) ss
                  = imap (fun j s0 => datablock_text (S k + j) s0) ss).
  { apply imap_ext. intros j x _. simpl. now rewrite Nat.add_succ_r. }
  rewrite imap_cons, Hrest, Nat.add_0_r. cbn [Text.concat].
  rewrite app_assoc, datablock_lines. cbn [datablocks_from].
  rewrite datablock_header_is_header, (datablocks_from_rows _ _ [] Hs).
  cbn [datablocks_from]. change (String.eqb "EOD" "EOD") with true. cbv iota.
  rewrite List.app_nil_r, rev_involutive, IH. reflexivity.
Qed.

Lemma string_concat_lacks (c : ascii) (sep : string) (l : list string) :
  lacks c sep -> Forall (lacks c) l -> lacks c (String.concat sep l).
Proof.
  intros Hsep H. induction H as [|x l Hx Hl IH]; [reflexivity|].
  destruct l as [|y l]; [exact Hx|].
  rewrite string_concat_cons by discriminate. rewrite !lacks_app. now repeat split.
Qed.

Lemma clause_text_lacks_newline (i : nat) (s : GnuplotSeries) :
  lacks newline (column_range s) -> lacks newline (title s) ->
  lacks newline (clause_text i s).
Proof.
  intros Hc Ht. destruct (print_size_t_token (N.of_nat i)) as (_ & _ & Hnl).
  pose proof (style_to_str_lacks_newline (line_style s)).
  pose proof (escape_quotes_lacks newline (title s) ltac:(discriminate) Ht).
  unfold clause_text. rewrite !lacks_app. now repeat split.
Qed.

(** X9. Reading back, line by line, the text that [show] builds finds one
    inline data block per pending series, in the order of the list, the block
    of a series holding exactly the lines of its data.  This needs the data
    to hold no line that reads [EOD], and the ranges, the column descriptors
    and the titles to hold no line feed. *)
Theorem show_text_one_block_per_series (g : Gnuplot) :
  Forall (fun s => Forall (fun l => l <> "EOD") (lines (data_string s))
                   /\ lacks newline (column_range s)
                   /\ lacks newline (title s)) (series g) ->
  lacks newline (xrange g) -> lacks newline (yrange g) -> lacks newline (zrange g) ->
  datablocks (show_text g +:+ nl) = map (fun s => lines (data_string s)) (series g)
  /\ length (datablocks (show_text g +:+ nl)) = length (series g).
Proof.
  intros Hss Hx Hy Hz.
  assert (Hblocks : datablocks (show_text g +:+ nl)
                    = map (fun s => lines (data_string s)) (series g)).
  { unfold datablocks. rewrite show_text_parts, !app_assoc.
    rewrite lines_one by reflexivity. cbn [datablocks_from].
    change (is_block_header "set style fill solid 0.5") with false. cbv iota.
    rewrite (datablocks_of_blocks (series g) 0).
    2:{ eapply Forall_impl; [exact Hss|]. simpl. now intros s [? _]. }
    rewrite <- (app_assoc (plot_prefix g)).
    set (cmd := plot_prefix g +:+ String.concat ", " (imap clause_text (series g))).
    assert (Hcmd : lacks newline cmd).
    { unfold cmd. apply lacks_app. split.
      - unfold plot_prefix. destruct (is_3dplot g); rewrite !lacks_app; now repeat split.
      - apply string_concat_lacks; [reflexivity|].
        apply Forall_forall. intros t Ht.
        apply list_elem_of_lookup in Ht as [i Hi].
        rewrite list_lookup_imap in Hi.
        destruct (series g !! i) as [s|] eqn:Hs; [|discriminate].
        injection Hi as <-. rewrite Forall_forall in Hss.
        apply list_elem_of_lookup_2 in Hs. destruct (Hss s Hs) as (_ & ? & ?).
        now apply clause_text_lacks_newline. }
    assert (Hno : is_block_header cmd = false).
    { unfold cmd, plot_prefix. destruct (is_3dplot g); rewrite !app_assoc.
      - apply (command_is_no_header "splot"); [discriminate|reflexivity|reflexivity].
      - apply (command_is_no_header "plot"); [discriminate|reflexivity|reflexivity]. }
    change (cmd +:+ nl) with (cmd +:+ nl +:+ "").
    rewrite lines_one by exact Hcmd. cbn [datablocks_from lines split_on].
    rewrite Hno. change (is_block_header "") with false. cbv iota.
    now rewrite List.app_nil_r. }
  split; [exact Hblocks|]. now rewrite Hblocks, length_map.
Qed.

End ShowBlocks.

(** ** [show] after [show] *)

Section ShowTwice.

Context {print_Q : Print Q}.

(** X10. After a [show(true)] that returned [true], nothing is pending: a
    second [show], with either argument, returns [true] and neither sends
    anything nor changes the session. *)
Theorem show_after_show_does_nothing (call_reset : bool) (g : Gnuplot) :
  fst (show true g) = true ->
  series (snd (show true g)) = []
  /\ show call_reset (snd (show true g)) = (true, snd (show true g)).
Proof.
  intros H.
  assert (Hs : series (snd (show true g)) = []).
  { destruct (show_cases true g) as [(Hs & Heq)|[(_ & _ & Heq)|(sent & _ & _ & Heq)]];
      rewrite Heq in *; [exact Hs|discriminate|reflexivity]. }
  split; [exact Hs|]. unfold show at 1. now rewrite Hs.
Qed.

(** X11. [show(false)] on an open connection keeps the pending series, the
    ranges and the mode, so a second [show(false)] sends the very same text
    once more, right after the first. *)
Theorem show_false_sends_the_same_again (g : Gnuplot) (sent : string) :
  series g <> [] ->
  connection g = Some sent ->
  fst (show false g) = true
  /\ same_but_connection g (snd (show false g))
  /\ connection (snd (show false g)) = Some (sent +:+ c_str (show_text g) +:+ nl)
  /\ fst (show false (snd (show false g))) = true
  /\ connection (snd (show false (snd (show false g))))
     = Some (sent +:+ (c_str (show_text g) +:+ nl) +:+ (c_str (show_text g) +:+ nl)).
Proof.
  intros Hs Hc.
  destruct (show_cases false g) as [(? & _)|[(_ & Hn & _)|(sent' & _ & Hc' & Heq)]];
    [contradiction|congruence|].
  rewrite Hc in Hc'. injection Hc' as <-. rewrite Heq. cbn [fst snd].
  set (g1 := with_connection (Some (sent +:+ c_str (show_text g) +:+ nl)) g).
  split; [reflexivity|]. split; [now repeat split|]. split; [reflexivity|].
  destruct (show_cases false g1) as [(? & _)|[(_ & Hn & _)|(sent1 & _ & Hc1 & Heq1)]];
    [contradiction|discriminate|].
  rewrite Heq1. cbn [fst snd connection with_connection]. injection Hc1 as <-.
  split; [reflexivity|]. now rewrite !app_assoc.
Qed.

End ShowTwice.

(** ** The inputs [histogram] does not bin *)

Section HistogramEdges.

Context {print_Q : Print Q} {print_binary64 : Print binary64} {heap : Heap}.

Lemma fold_smallest_constant (x : binary64) (l : list binary64) :
  Forall (fun v => v = x) l ->
  fold_left (fun smallest y => if double_lt y smallest then y else smallest) l x = x.
Proof.
  induction 1 as [|y l -> _ IH]; [reflexivity|]. simpl.
  now destruct (double_lt x x).
Qed.

Lemma fold_largest_constant (x : binary64) (l : list binary64) :
  Forall (fun v => v = x) l ->
  fold_left (fun largest y => if double_lt largest y then y else largest) l x = x.
Proof.
  induction 1 as [|y l -> _ IH]; [reflexivity|]. simpl.
  now destruct (double_lt x x).
Qed.

(** [x - x] is [+0], or NaN when [x] is an infinity or NaN. *)
Lemma double_sub_diag (x : binary64) :
  double_sub x x = S754_zero false \/ double_sub x x = S754_nan.
Proof.
  destruct x as [[]|[]| |s m e]; cbn; auto.
  left. unfold double_sub, SFsub. now rewrite Z.sub_diag.
Qed.

(** Zero or NaN, divided by anything, is zero or NaN; divided by zero or NaN,
    it is NaN. *)
Lemma double_div_zero (x y : binary64) :
  (exists s, x = S754_zero s) \/ x = S754_nan ->
  (exists s, double_div x y = S754_zero s) \/ double_div x y = S754_nan.
Proof.
  intros [[s ->]| ->]; [|now right].
  destruct y as [sy|sy| |sy my ey]; cbn; eauto.
Qed.

Lemma double_div_zero_zero (x y : binary64) :
  (exists s, x = S754_zero s) \/ x = S754_nan ->
  (exists s, y = S754_zero s) \/ y = S754_nan ->
  double_div x y = S754_nan.
Proof.
  intros [[s ->]| ->] [[s' ->]| ->]; reflexivity.
Qed.

(** X15. The inputs [histogram] does not bin.  With [nbins = 0] the
    assertion on the bin count fails, whatever the values and the session,
    also for no values at all.  With a bin count other than zero and no
    values the call returns the session as it was, also in 3D mode.  With
    values that are all the same, in a session that accepts a 2D series,
    the bin width is zero or NaN and the quotient of the first value is NaN:
    unless the allocation of the counters has thrown, the call goes on to
    [static_cast<int>] of NaN, whose behaviour is undefined. *)
Theorem histogram_inputs_not_binned (values : list binary64) (nbins : N)
    (label : string) (style : LineStyle) (g : Gnuplot) (x : binary64)
    (rest : list binary64) :
  histogram values 0 label style g = Fault (AssertionFailed nbins_positive)
  /\ (nbins <> 0%N -> histogram [] nbins label style g = Ok g)
  /\ (nbins <> 0%N ->
      series g = [] \/ is_3dplot g = false ->
      Forall (fun v => v = x) rest ->
      let binwidth := double_div (double_sub x x) (double_of_size_t nbins) in
      min_element (x :: rest) = Some x
      /\ max_element (x :: rest) = Some x
      /\ double_div (double_sub x x) binwidth = S754_nan
      /\ histogram (x :: rest) nbins label style g
         = Fault match allocate nbins with
                 | allocated => Undefined float_to_int
                 | length_error => LengthError
                 | bad_alloc => BadAlloc
                 end).
Proof.
  split; [reflexivity|]. split.
  - intros Hn. unfold histogram. now destruct (N.eqb_spec nbins 0).
  - intros Hn Hmode Hall binwidth.
    assert (Hmin : min_element (x :: rest) = Some x).
    { cbn [min_element]. now rewrite fold_smallest_constant. }
    assert (Hmax : max_element (x :: rest) = Some x).
    { cbn [max_element]. now rewrite fold_largest_constant. }
    assert (Hdiff : (exists s, double_sub x x = S754_zero s) \/ double_sub x x = S754_nan).
    { destruct (double_sub_diag x) as [->| ->]; eauto. }
    assert (Hq : double_div (double_sub x x) binwidth = S754_nan).
    { apply double_div_zero_zero; [exact Hdiff|]. now apply double_div_zero. }
    split; [exact Hmin|]. split; [exact Hmax|]. split; [exact Hq|].
    rewrite (histogram_body _ _ _ _ _ x x) by (assumption || discriminate).
    fold binwidth. unfold new_bins. destruct (allocate nbins); try reflexivity.
    cbn [hist_fill]. unfold hist_index. rewrite Hq. reflexivity.
Qed.

End HistogramEdges.

(** ** The words of a command *)

Section CommandWords.

Context {T : Type} {print_T : Print T} {print_Q : Print Q}.
Context {print_binary64 : Print binary64} {heap : Heap}.

Lemma string_length_app (s t : string) :
  String.length (s +:+ t) = (String.length s + String.length t)%nat.
Proof.
  induction s as [|a s IH]; [reflexivity|]. rewrite app_cons. simpl. now rewrite IH.
Qed.

Lemma print_size_t_lacks_nul (n : N) : lacks nul (print n).
Proof.
  unfold print, print_size_t, NilZero.string_of_uint.
  destruct (N.to_uint n); try reflexivity;
    apply (string_of_uint_lacks _ (_ _)); reflexivity.
Qed.

Lemma split_column_numbers (k : nat) (index : Z) (p : string) :
  1 < index -> lacks colon p ->
  split_on colon (p +:+ column_numbers index k)
  = p :: map (fun j => print (index + Z.of_nat j)) (seq 0 k).
Proof.
  revert index p. induction k as [|k IH]; intros index p Hi Hp.
  - cbn [column_numbers seq map]. rewrite app_nil_r. now apply split_on_lacks.
  - cbn [column_numbers]. destruct (Z.ltb_spec 1 index) as [_|?]; [|lia].
    change (":" +:+ print index +:+ column_numbers (index + 1) k)
      with (String colon (print index +:+ column_numbers (index + 1) k)).
    rewrite (split_on_app _ _ _ Hp), IH by (lia || now apply print_int_lacks).
    cbn [seq map]. rewrite Z.add_0_r. f_equal. f_equal.
    rewrite <- seq_shift, map_map. apply map_ext. intros j. f_equal. lia.
Qed.

(** X16. The descriptor a plotting call stores names every column of its
    data: when [_plot] returns for a non-empty first vector, the descriptor
    of the series it appended, split at the colons, is the list of the
    numbers from [1] to the number of vectors passed. *)
Theorem descriptor_names_every_column (label : string) (style : LineStyle)
    (d : bool) (v : list T) (args : list (list T)) (g g' : Gnuplot) :
  _plot label style d v args g = Ok g' -> v <> [] ->
  exists s,
    series g' = series g ++ [s]
    /\ split_on colon (column_range s)
       = map (fun j => print (1 + Z.of_nat j)) (seq 0 (S (length args)))
    /\ length (split_on colon (column_range s)) = length (v :: args).
Proof.
  intros H Hv. destruct (_plot_returns_series _ _ _ _ _ _ _ H Hv) as [_ ->].
  exists (plotted_series label style v args). split; [reflexivity|].
  assert (Hsplit : split_on colon (column_range (plotted_series label style v args))
                   = map (fun j => print (1 + Z.of_nat j)) (seq 0 (S (length args)))).
  { cbn [column_range plotted_series column_numbers].
    change (1 <? 1) with false. cbv iota. rewrite app_nil_l.
    rewrite split_column_numbers by (lia || now apply print_int_lacks).
    cbn [seq map]. f_equal.
    rewrite <- seq_shift, map_map. apply map_ext. intros j. f_equal. lia. }
  split; [exact Hsplit|]. rewrite Hsplit, length_map, length_seq. reflexivity.
Qed.

(** X17. The first line [redirect_to_dumb] sends has six words, and the
    terminal mode is not one of them: the code writes the mode right after
    the height, with no blank between the two, so that the last word is the
    height with the mode word appended. *)
Theorem redirect_to_dumb_first_line (filename : string) (width height : N)
    (mode : TerminalMode) (g : Gnuplot) (sent : string) :
  connection g = Some sent ->
  let line := "set terminal dumb size " +:+ print width +:+ " "
              +:+ print height +:+ mode_word mode in
  exists rest,
    connection (snd (redirect_to_dumb filename width height mode g))
    = Some (sent +:+ line +:+ nl +:+ rest)
    /\ lacks newline line
    /\ fields line
       = ["set"; "terminal"; "dumb"; "size"; print width;
          print height +:+ mode_word mode]
    /\ ~ In (mode_word mode) (fields line).
Proof.
  intros Hc line.
  destruct (print_size_t_token width) as (Hw & Hwsp & Hwnl).
  destruct (print_size_t_token height) as (Hh & Hhsp & Hhnl).
  assert (Hm : lacks space (mode_word mode) /\ lacks newline (mode_word mode))
    by (now destruct mode).
  assert (Hfields : fields line
                    = ["set"; "terminal"; "dumb"; "size"; print width;
                       print height +:+ mode_word mode]).
  { subst line.
    change ("set terminal dumb size " +:+ print width +:+ " "
            +:+ print height +:+ mode_word mode)
      with ("set" +:+ String space
              ("terminal" +:+ String space
                 ("dumb" +:+ String space
                    ("size" +:+ String space
                       (print width +:+ String space
                          (print height +:+ mode_word mode)))))).
    rewrite !fields_app by (assumption || discriminate || reflexivity).
    rewrite fields_last; [reflexivity| |].
    - destruct (print height); [contradiction|discriminate].
    - apply lacks_app. now split. }
  assert (Hnul : lacks nul (line +:+ nl)).
  { pose proof (print_size_t_lacks_nul width). pose proof (print_size_t_lacks_nul height).
    subst line. rewrite !lacks_app. repeat split; try assumption; now destruct mode. }
  exists (c_str (if nonempty filename
                 then "set output '" +:+ filename +:+ "'" +:+ nl else "")
          +:+ nl).
  split; [|split; [|split]].
  - unfold redirect_to_dumb, sendcommand. rewrite Hc. cbn [snd connection with_connection].
    do 2 f_equal. rewrite <- !app_assoc, <- (c_str_app (line +:+ nl) _ Hnul).
    f_equal. f_equal. subst line. destruct mode, (nonempty filename);
      cbn [mode_word]; now rewrite !app_assoc, ?app_nil_l, ?app_nil_r.
  - subst line. rewrite !lacks_app. now repeat split.
  - exact Hfields.
  - rewrite Hfields. intros Hin.
    assert (Hlen : forall s, s <> "" -> s +:+ mode_word mode <> mode_word mode).
    { intros s Hs Heq. apply (f_equal String.length) in Heq.
      rewrite string_length_app in Heq. destruct s; [contradiction|]. simpl in Heq. lia. }
    destruct Hin as [He|[He|[He|[He|[He|[He|[]]]]]]];
      try (destruct mode; discriminate).
    + destruct (print_size_t_token width) as (_ & _ & _).
      assert (Hd : lacks "a"%char (print width) /\ lacks "m"%char (print width)).
      { unfold print, print_size_t, NilZero.string_of_uint.
        destruct (N.to_uint width);
          split; try reflexivity; apply (string_of_uint_lacks _ (_ _)); reflexivity. }
      rewrite He in Hd. destruct mode; destruct Hd; discriminate.
    + now apply (Hlen (print height)).
Qed.

(** X18. The words for the line styles tell the styles apart: two
    different styles never give the same word, and no word is empty or holds
    a blank or a quote. *)
Theorem style_to_str_tells_styles_apart (a b : LineStyle) :
  (style_to_str a = style_to_str b <-> a = b)
  /\ style_to_str a <> ""
  /\ lacks space (style_to_str a) /\ lacks quote (style_to_str a).
Proof.
  split; [|split; [|split]].
  - split; [|now intros ->]. destruct a, b; (reflexivity || discriminate).
  - destruct a; discriminate.
  - destruct a; reflexivity.
  - destruct a; reflexivity.
Qed.

End CommandWords.

(** ** The further properties on concrete data *)

Section FurtherRuns.

#[local] Existing Instance DefaultFormat.print_g.
#[local] Existing Instance DefaultFormat.print_binary64_g.
Import Demo.
#[local] Existing Instance small_heap.

Local Open Scope Q_scope.

Lemma escape_quotes_piecewise_witness :
  escape_quotes ("it's" +:+ " o'clock") = "it''s" +:+ " o''clock"
  /\ count_char "t" (escape_quotes "it's") = 1%nat
  /\ count_char quote (escape_quotes "it's") = 2%nat.
Proof.
  destruct (escape_quotes_piecewise "it's" " o'clock" "t") as (Happ & Hq & Hc & _).
  split; [rewrite Happ; reflexivity|].
  split; [rewrite Hc; [reflexivity|discriminate]|].
  rewrite Hq. reflexivity.
Defined.

Lemma connection_only_grows_witness :
  run script (Gnuplot_new "gnuplot" true (fun _ _ => true)) = Ok after_script
  /\ ok after_script = true
  /\ exists more, connection after_script = Some (preamble +:+ more) /\ whole_lines more.
Proof.
  assert (Hrun : run script (Gnuplot_new "gnuplot" true (fun _ _ => true))
                 = Ok after_script) by (vm_compute; reflexivity).
  destruct (connection_only_grows (T := Q) "gnuplot" true (fun _ _ => true)
              script after_script Hrun) as (_ & Hok & _ & Hlive).
  split; [exact Hrun|]. split; [exact Hok|]. apply Hlive. exact Hok.
Defined.

Lemma pending_series_append_only_witness :
  step first_3d fresh = Ok after_first_3d
  /\ ((runs_reset first_3d fresh = true /\ series after_first_3d = [])
      \/ (runs_reset first_3d fresh = false
          /\ (series after_first_3d = series fresh
              \/ exists s, series after_first_3d = series fresh ++ [s]
                           /\ added_dimension first_3d <> None))).
Proof.
  assert (Hstep : step first_3d fresh = Ok after_first_3d) by (vm_compute; reflexivity).
  split; [exact Hstep|].
  exact (pending_series_append_only first_3d fresh after_first_3d Hstep).
Defined.

Lemma ranges_change_by_setters_only_witness :
  step (T := Q) (call_show true) ready_to_show
  = Ok (snd (show true ready_to_show))
  /\ zrange (snd (show true ready_to_show)) = zrange ready_to_show
  /\ xrange (snd (show true ready_to_show)) = "[]"
  /\ yrange (snd (show true ready_to_show)) = "[]".
Proof.
  assert (Hstep : step (T := Q) (call_show true) ready_to_show
                  = Ok (snd (show true ready_to_show))) by reflexivity.
  destruct (ranges_change_by_setters_only _ _ _ Hstep) as (Hz & _ & _ & Hxy).
  split; [exact Hstep|]. split; [apply Hz; reflexivity|].
  apply Hxy. vm_compute. reflexivity.
Defined.

Lemma reachable_sessions_are_well_formed_witness :
  reachable (T := Q) ready_to_show
  /\ (exists lo hi, xrange ready_to_show = format_range lo hi)
  /\ Forall (fun s => (exists body, data_string s = body +:+ nl)
                      /\ (exists rest, column_range s = "1" +:+ rest))
            (series ready_to_show).
Proof.
  assert (Hreach : reachable (T := Q) ready_to_show).
  { exists "gnuplot", true, (fun _ _ => true),
      [call_plot [1; 2] [3; 4] "" LINES;
       call_set_xrange (Num 0) (Num 6); call_set_zrange (Num 0) (Num 1)].
    vm_compute. reflexivity. }
  destruct (reachable_sessions_are_well_formed ready_to_show Hreach)
    as (_ & Hx & _ & _ & Hs).
  split; [exact Hreach|]. split; [exact Hx|exact Hs].
Defined.

Lemma show_text_one_block_per_series_witness :
  datablocks (show_text ready_to_show +:+ nl) = [["1 3 "; "2 4 "; ""]]
  /\ length (datablocks (show_text ready_to_show +:+ nl)) = 1%nat.
Proof.
  destruct (show_text_one_block_per_series ready_to_show) as [Hblocks Hlen].
  - change (series ready_to_show)
      with [ {| data_string := "1 3 " +:+ nl +:+ "2 4 " +:+ nl; line_style := LINES;
                title := ""; column_range := "1:2" |} ].
    constructor; [|constructor].
    split; [|split; vm_compute; reflexivity].
    change (lines (data_string _)) with ["1 3 "; "2 4 "; ""].
    repeat constructor; discriminate.
  - vm_compute. reflexivity.
  - vm_compute. reflexivity.
  - vm_compute. reflexivity.
  - split; [rewrite Hblocks; reflexivity|rewrite Hlen; reflexivity].
Defined.

Lemma show_after_show_does_nothing_witness :
  fst (show true ready_to_show) = true
  /\ series (snd (show true ready_to_show)) = []
  /\ show false (snd (show true ready_to_show)) = (true, snd (show true ready_to_show)).
Proof.
  assert (H : fst (show true ready_to_show) = true) by (vm_compute; reflexivity).
  split; [exact H|]. exact (show_after_show_does_nothing false ready_to_show H).
Defined.

Lemma show_false_sends_the_same_again_witness :
  connection ready_to_show = Some preamble
  /\ connection (snd (show false (snd (show false ready_to_show))))
     = Some (preamble +:+ (c_str (show_text ready_to_show) +:+ nl)
                      +:+ (c_str (show_text ready_to_show) +:+ nl)).
Proof.
  assert (Hc : connection ready_to_show = Some preamble) by (vm_compute; reflexivity).
  destruct (show_false_sends_the_same_again ready_to_show preamble) as (_ & _ & _ & _ & H).
  - vm_compute. discriminate.
  - exact Hc.
  - split; [exact Hc|exact H].
Defined.

Lemma histogram_inputs_not_binned_witness :
  histogram (doubles [1; 2]%Z) 0 "" BOXES fresh = Fault (AssertionFailed nbins_positive)
  /\ histogram [] 2 "" BOXES after_first_3d = Ok after_first_3d
  /\ double_div (double_sub (double_of_Z 3) (double_of_Z 3))
                (double_div (double_sub (double_of_Z 3) (double_of_Z 3))
                            (double_of_size_t 2))
     = S754_nan
  /\ histogram (doubles [3; 3; 3]%Z) 2 "" BOXES fresh = Fault (Undefined float_to_int).
Proof.
  split; [|split].
  - apply (histogram_inputs_not_binned (doubles [1; 2]%Z) 2 "" BOXES fresh
             (double_of_Z 3) (doubles [3; 3]%Z)).
  - apply (histogram_inputs_not_binned (doubles [1; 2]%Z) 2 "" BOXES after_first_3d
             (double_of_Z 3) (doubles [3; 3]%Z)). lia.
  - destruct (histogram_inputs_not_binned (doubles [1; 2]%Z) 2 "" BOXES fresh
                (double_of_Z 3) (doubles [3; 3]%Z)) as (_ & _ & H).
    destruct H as (_ & _ & Hq & Hrun).
    + lia.
    + left. reflexivity.
    + repeat constructor.
    + split; [exact Hq|exact Hrun].
Defined.

Lemma descriptor_names_every_column_witness :
  exists s,
    series (returned (plot [1; 2] [3; 4] "" LINES fresh)) = series fresh ++ [s]
    /\ split_on colon (column_range s) = ["1"; "2"].
Proof.
  destruct (descriptor_names_every_column (T := Q) "" LINES false [1; 2] [[3; 4]] fresh
              (returned (plot [1; 2] [3; 4] "" LINES fresh)))
    as (s & Hs & Hsplit & _).
  - vm_compute. reflexivity.
  - discriminate.
  - exists s. split; [exact Hs|]. rewrite Hsplit. reflexivity.
Defined.

Lemma redirect_to_dumb_first_line_witness :
  fields ("set terminal dumb size " +:+ print 80%N +:+ " " +:+ print 50%N
          +:+ mode_word ANSI)
  = ["set"; "terminal"; "dumb"; "size"; "80"; "50ansi"].
Proof.
  destruct (redirect_to_dumb_first_line "" 80 50 ANSI fresh preamble)
    as (rest & _ & _ & Hfields & _).
  - vm_compute. reflexivity.
  - rewrite Hfields. reflexivity.
Defined.

End FurtherRuns.
